(** * A todo CRUD service over one MongoDB collection

    Shallow embedding of [main.go] (and of the two handlers of the older
    revision of the same file that differ from it).  The six gin handlers
    are written in a small state monad over the collection, the writes
    made on the gin context and the number of database calls issued; what
    the handlers cannot decide themselves (writes of concurrent requests,
    storage failures, the identifier the driver draws, the scan order of
    the collection) is supplied by an explicit environment. *)

From Stdlib Require Import List String Ascii NArith Arith Bool Lia Permutation.
From Stdlib Require DecimalString.
Import ListNotations.
Local Open Scope string_scope.
Local Open Scope list_scope.
Local Open Scope nat_scope.

(* ================================================================== *)
(** ** Bytes, hexadecimal text and [bson.ObjectID] *)
(* ================================================================== *)

(** A Go [string] is a sequence of bytes; [bytes_of] gives them as numbers. *)
Fixpoint bytes_of (s : string) : list N :=
  match s with
  | EmptyString => []
  | String c r => N_of_ascii c :: bytes_of r
  end.

(** [bson.ObjectID] is [[12]byte]. *)
Definition ObjectID := list N.

Definition NilObjectID : ObjectID := repeat 0%N 12.

Definition oid_eqb (a b : ObjectID) : bool :=
  if list_eq_dec N.eq_dec a b then true else false.

(** [ObjectID.IsZero]. *)
Definition IsZero (id : ObjectID) : bool := oid_eqb id NilObjectID.

(** [encoding/hex]: [fromHexChar]. *)
Definition fromHexChar (c : ascii) : option N :=
  let n := N_of_ascii c in
  if (48 <=? n)%N && (n <=? 57)%N then Some (n - 48)%N
  else if (97 <=? n)%N && (n <=? 102)%N then Some (n - 97 + 10)%N
  else if (65 <=? n)%N && (n <=? 70)%N then Some (n - 65 + 10)%N
  else None.

(** [hex.Decode]: two digits a byte; an invalid digit or an odd length is
    an error ([None]). *)
Fixpoint hex_Decode (s : string) : option (list N) :=
  match s with
  | EmptyString => Some []
  | String _ EmptyString => None
  | String a (String b r) =>
      match fromHexChar a, fromHexChar b with
      | Some p, Some q =>
          match hex_Decode r with
          | Some l => Some ((p * 16 + q)%N :: l)
          | None => None
          end
      | _, _ => None
      end
  end.

(** [bson.ObjectIDFromHex]: the text has 24 characters and decodes. *)
Definition ObjectIDFromHex (s : string) : option ObjectID :=
  if negb (String.length s =? 24) then None else hex_Decode s.

Definition hexdigit (n : N) : ascii :=
  ascii_of_N (if (n <? 10)%N then 48 + n else 87 + n)%N.

(** [ObjectID.Hex]: lower-case hexadecimal. *)
Fixpoint Hex (id : list N) : string :=
  match id with
  | [] => EmptyString
  | b :: r => String (hexdigit (b / 16)) (String (hexdigit (b mod 16)) (Hex r))
  end.

(* ================================================================== *)
(** ** The record and the payload *)
(* ================================================================== *)

Record todo := mkTodo {
  ID : ObjectID;
  Item : string;
  Completed : bool
}.

Record todoPayload := mkPayload {
  payloadItem : string;
  payloadCompleted : bool
}.

(** Go's zero values ([var payload todoPayload], [var todo todo]). *)
Definition zeroPayload : todoPayload := mkPayload EmptyString false.
Definition zeroTodo : todo := mkTodo NilObjectID EmptyString false.

(** A Go slice may be nil; [append] never returns nil. *)
Definition slice (A : Type) := option (list A).

Definition append {A} (s : slice A) (x : A) : slice A :=
  match s with
  | None => Some [x]
  | Some l => Some (l ++ [x])
  end.

(* ================================================================== *)
(** ** JSON values and [ShouldBindJSON] *)
(* ================================================================== *)

#[local] Unset Elimination Schemes.

Inductive json :=
| JNull
| JBool (b : bool)
| JNumber (literal : string)
| JString (s : string)
| JArray (elements : list json)
| JObject (members : list (string * json)).

#[local] Set Elimination Schemes.

(** [encoding/json] matches an object key with a struct field without
    regard to letter case; the field names here are plain ASCII letters
    with no [k] or [s], so folding ASCII letters decides the match. *)
Definition lower (c : ascii) : ascii :=
  let n := N_of_ascii c in
  if (65 <=? n)%N && (n <=? 90)%N then ascii_of_N (n + 32) else c.

Fixpoint foldName (s : string) : string :=
  match s with
  | EmptyString => EmptyString
  | String c r => String (lower c) (foldName r)
  end.

(** One member of the object decoded into the payload: [null] leaves the
    field as it is, a value of the wrong JSON type is an
    [UnmarshalTypeError], an unknown key is skipped. *)
Definition setPayloadField (p : todoPayload) (m : string * json)
  : option todoPayload :=
  let (key, v) := m in
  if String.eqb (foldName key) "item" then
    match v with
    | JString s => Some (mkPayload s (payloadCompleted p))
    | JNull => Some p
    | _ => None
    end
  else if String.eqb (foldName key) "completed" then
    match v with
    | JBool b => Some (mkPayload (payloadItem p) b)
    | JNull => Some p
    | _ => None
    end
  else Some p.

Fixpoint decodeMembers {T} (set : T -> string * json -> option T)
  (ms : list (string * json)) (p : T) : option T :=
  match ms with
  | [] => Some p
  | m :: r =>
      match set p m with
      | Some p' => decodeMembers set r p'
      | None => None
      end
  end.

(** [json.Decoder.Decode] into a struct: [null] is a no-op, an object is
    decoded member by member (a later duplicate key wins), anything else
    is an error. *)
Definition Unmarshal {T} (set : T -> string * json -> option T)
  (v : json) (p : T) : option T :=
  match v with
  | JNull => Some p
  | JObject ms => decodeMembers set ms p
  | _ => None
  end.

(** [ginContext.ShouldBindJSON(&payload)].  The request body is the first
    JSON value of the stream, or [None] when there is none (empty body,
    syntax error).  The result is the filled payload, or [None] for a
    non-nil [err].  gin's own validation step reads [binding] tags, of
    which the payload has none. *)
Definition ShouldBindJSON (body : option json) (p : todoPayload)
  : option todoPayload :=
  match body with
  | None => None
  | Some v => Unmarshal setPayloadField v p
  end.

(* ================================================================== *)
(** ** [utf8.RuneCountInString] *)
(* ================================================================== *)

Module utf8.

Definition RuneSelf : N := 0x80.
Definition locb : N := 0x80.
Definition hicb : N := 0xBF.
Definition xx : N := 0xF1.
Definition as_ : N := 0xF0.
Definition s1 : N := 0x02.
Definition s2 : N := 0x13.
Definition s3 : N := 0x03.
Definition s4 : N := 0x23.
Definition s5 : N := 0x34.
Definition s6 : N := 0x04.
Definition s7 : N := 0x44.

(** The table [first]: information about the first byte of an encoding. *)
Definition first (c : N) : N :=
  if (c <? 0x80)%N then as_
  else if (c <? 0xC2)%N then xx
  else if (c <? 0xE0)%N then s1
  else if (c =? 0xE0)%N then s2
  else if (c <? 0xED)%N then s3
  else if (c =? 0xED)%N then s4
  else if (c <? 0xF0)%N then s3
  else if (c =? 0xF0)%N then s5
  else if (c <? 0xF4)%N then s6
  else if (c =? 0xF4)%N then s7
  else xx.

(** The table [acceptRanges]: bounds of the second byte. *)
Definition acceptRanges (i : N) : N * N :=
  match i with
  | 0 => (locb, hicb)
  | 1 => (0xA0, hicb)
  | 2 => (locb, 0x9F)
  | 3 => (0x90, hicb)
  | 4 => (locb, 0x8F)
  | _ => (0, 0)
  end%N.

Definition outside (c lo hi : N) : bool := (c <? lo)%N || (hi <? c)%N.

(** Width of the rune that starts with byte [c] followed by [rest]: the
    body of the loop of [RuneCountInString]. *)
Definition size (c : N) (rest : list N) : nat :=
  if (c <? RuneSelf)%N then 1
  else
    let x := first c in
    if (x =? xx)%N then 1
    else
      let sz := N.to_nat (N.land x 7) in
      if List.length rest <? sz - 1 then 1
      else
        let (lo, hi) := acceptRanges (N.shiftr x 4) in
        if outside (nth 0 rest 0%N) lo hi then 1
        else if (sz =? 2) then 2
        else if outside (nth 1 rest 0%N) locb hicb then 1
        else if (sz =? 3) then 3
        else if outside (nth 2 rest 0%N) locb hicb then 1
        else 4.

(** The loop: [skip] bytes still belong to the rune counted last. *)
Fixpoint count (skip : nat) (s : list N) : nat :=
  match s with
  | [] => 0
  | c :: rest =>
      match skip with
      | S k => count k rest
      | O => S (count (size c rest - 1) rest)
      end
  end.

Definition RuneCountInString (s : string) : nat := count 0 (bytes_of s).

End utf8.

(* ================================================================== *)
(** ** The validator: [validate:"required,max=100,min=2"] *)
(* ================================================================== *)

(** A tag of the [validate] struct tag: its name and its parameter. *)
Inductive tag :=
| required
| max (p : nat)
| min (p : nat).

Definition itoa (n : nat) : string :=
  DecimalString.NilEmpty.string_of_uint (Nat.to_uint n).

Definition tag_name (t : tag) : string :=
  match t with
  | required => "required"
  | max _ => "max"
  | min _ => "min"
  end.

Definition tag_param (t : tag) : string :=
  match t with
  | required => EmptyString
  | max p | min p => itoa p
  end.

(** The validator's check of one tag on a string field: [required] is
    "not the zero value", [max] and [min] compare the number of runes. *)
Definition holds (t : tag) (field : string) : bool :=
  match t with
  | required => negb (String.eqb field EmptyString)
  | max p => utf8.RuneCountInString field <=? p
  | min p => p <=? utf8.RuneCountInString field
  end.

Record FieldError := mkFieldError {
  Field : string;
  ActualTag : string;
  Param : string
}.

(** The tags of a field are checked in the order written; the first one
    that fails is the field's error. *)
Fixpoint validateField (name : string) (tags : list tag) (field : string)
  : list FieldError :=
  match tags with
  | [] => []
  | t :: r =>
      if holds t field then validateField name r field
      else [mkFieldError name (tag_name t) (tag_param t)]
  end.

(** What [Validate.Struct] can return as a non-nil error. *)
Inductive validation_error :=
| ValidationErrors (fes : list FieldError)
| InvalidValidationError.

Definition Item_tags : list tag := [required; max 100; min 2].

(** [Validate.Struct(payload)]: [Item] carries the tags, [Completed] none. *)
Definition Validate_Struct (p : todoPayload) : option validation_error :=
  match validateField "Item" Item_tags (payloadItem p) with
  | [] => None
  | fes => Some (ValidationErrors fes)
  end.

Definition newline : string := String (ascii_of_N 10) EmptyString.

Definition parseValidationError (err : validation_error) : string :=
  match err with
  | ValidationErrors validationErrors =>
      fold_left
        (fun result fieldError =>
           (result ++ "Field validation for '" ++ Field fieldError
                   ++ "' failed: '" ++ ActualTag fieldError
                   ++ "' (condition: " ++ Param fieldError ++ ")" ++ newline)%string)
        validationErrors EmptyString
  | InvalidValidationError => "An unknown validation error occurred."
  end.

(* ================================================================== *)
(** ** The collection and the calls of the driver *)
(* ================================================================== *)

(** The collection [todos_db.todos] is the list of its documents in
    insertion order.  Every filter of the program is [bson.M{"_id": id}]. *)
Definition has_id (id : ObjectID) (t : todo) : bool := oid_eqb (ID t) id.

Definition find_by_id (id : ObjectID) (docs : list todo) : option todo :=
  find (has_id id) docs.

(** The two update documents of the program:
    [bson.M{"$set": bson.M{"completed": b}}] and
    [bson.M{"$set": bson.M{"item": s}}]. *)
Inductive update :=
| set_completed (b : bool)
| set_item (s : string).

Definition apply_update (u : update) (t : todo) : todo :=
  match u with
  | set_completed b => mkTodo (ID t) (Item t) b
  | set_item s => mkTodo (ID t) s (Completed t)
  end.

(** The first document that matches is updated, or removed. *)
Fixpoint update_first (id : ObjectID) (u : update) (docs : list todo)
  : list todo :=
  match docs with
  | [] => []
  | t :: r =>
      if has_id id t then apply_update u t :: r
      else t :: update_first id u r
  end.

Fixpoint delete_first (id : ObjectID) (docs : list todo) : list todo :=
  match docs with
  | [] => []
  | t :: r => if has_id id t then r else t :: delete_first id r
  end.

(** The unique index on [_id]: a document whose identifier is taken is
    refused. *)
Definition insert_doc (t : todo) (docs : list todo) : option (list todo) :=
  if existsb (has_id (ID t)) docs then None else Some (docs ++ [t]).

(** The identifiers of the collection stay pairwise distinct: the unique
    index on [_id] is an invariant of every write. *)
Definition unique_ids (d : list todo) : Prop := NoDup (map ID d).

(** A write of another, concurrent request between two calls of this one. *)
Inductive write :=
| w_insert (t : todo)
| w_update (id : ObjectID) (u : update)
| w_delete (id : ObjectID).

Definition apply_write (docs : list todo) (w : write) : list todo :=
  match w with
  | w_insert t =>
      match insert_doc t docs with
      | Some docs' => docs'
      | None => docs
      end
  | w_update id u => update_first id u docs
  | w_delete id => delete_first id docs
  end.

(** What the environment decides about one call of the driver: the
    concurrent writes that land before it, whether the storage layer fails
    it, the identifier [bson.NewObjectID] draws should the call insert, and
    the scan order should it be a [Find]. *)
Record event := mkEvent {
  before : list write;
  fault : option string;
  fresh : ObjectID;
  order : list todo -> list todo
}.

(** The collection as a call finds it. *)
Definition arrive (e : event) (docs : list todo) : list todo :=
  fold_left apply_write (before e) docs.

Definition calm (e : event) : Prop := before e = [] /\ fault e = None.

(** Errors of the driver: [mongo.ErrNoDocuments], or any other. *)
Inductive mongo_error :=
| ErrNoDocuments
| ServerError (msg : string).

Definition Error_ (err : mongo_error) : string :=
  match err with
  | ErrNoDocuments => "mongo: no documents in result"
  | ServerError msg => msg
  end.

Definition is_ErrNoDocuments (err : mongo_error) : bool :=
  match err with
  | ErrNoDocuments => true
  | ServerError _ => false
  end.

Inductive result (A : Type) :=
| Ok (a : A)
| Err (err : mongo_error).

Arguments Ok {A} a.
Arguments Err {A} err.

(* ================================================================== *)
(** ** The gin context and the handler monad *)
(* ================================================================== *)

(** What a handler passes to [JSON] / [IndentedJSON]. *)
Inductive body :=
| H (key value : string)
| one (t : todo)
| many (ts : slice todo)
| nobody.

Record response := mkResponse {
  code : nat;
  content : body
}.

Definition StatusOK := 200.
Definition StatusCreated := 201.
Definition StatusBadRequest := 400.
Definition StatusNotFound := 404.
Definition StatusInternalServerError := 500.

(** The state a handler runs in: the environment (read only), the
    collection, the number of driver calls issued so far and the writes
    made on the gin context so far. *)
Record world := mkWorld {
  env : nat -> event;
  docs : list todo;
  calls : nat;
  written : list response
}.

(** How a step ends: it goes on with a value, the handler executed
    [return], or the goroutine panicked. *)
Inductive flow (A : Type) :=
| Next (a : A)
| Return
| Panic (why : string).

Arguments Next {A} a.
Arguments Return {A}.
Arguments Panic {A} why.

Definition M (A : Type) : Type := world -> flow A * world.

Definition ret {A} (a : A) : M A := fun w => (Next a, w).

Definition bind {A B} (m : M A) (k : A -> M B) : M B :=
  fun w =>
    match m w with
    | (Next a, w') => k a w'
    | (Return, w') => (Return, w')
    | (Panic why, w') => (Panic why, w')
    end.

Declare Scope go_scope.
Delimit Scope go_scope with go.

Notation "x <- c ;; k" := (bind c (fun x => k))
  (at level 61, c at next level, right associativity) : go_scope.
Notation "' pat <- c ;; k" := (bind c (fun x => match x with pat => k end))
  (at level 61, pat pattern, c at next level, right associativity) : go_scope.
Notation "c ;; k" := (bind c (fun _ => k))
  (at level 61, right associativity) : go_scope.

Local Open Scope go_scope.

Definition return_ {A} : M A := fun w => (Return, w).

Definition panic {A} (why : string) : M A := fun w => (Panic why, w).

(** [ginContext.JSON(code, obj)]: one more write on the context. *)
Definition JSON (c : nat) (obj : body) : M unit :=
  fun w =>
    (Next tt, mkWorld (env w) (docs w) (calls w)
                      (written w ++ [mkResponse c obj])).

(** [IndentedJSON] differs from [JSON] in white space only. *)
Definition IndentedJSON (c : nat) (obj : body) : M unit := JSON c obj.

(** One call of the driver: the concurrent writes of its event land, then
    either the storage layer fails the call or [op] runs on the
    collection.  A failed call is taken as not applied; an error returned
    for a write the server did apply is outside this model. *)
Definition call {A} (op : event -> list todo -> A * list todo)
  (failed : mongo_error -> A) : M A :=
  fun w =>
    let e := env w (calls w) in
    let d := arrive e (docs w) in
    let (r, d') :=
      match fault e with
      | Some msg => (failed (ServerError msg), d)
      | None => op e d
      end in
    (Next r, mkWorld (env w) d' (S (calls w)) (written w)).

Record InsertOneResult := mkInsertOneResult { InsertedID : ObjectID }.

Record UpdateResult := mkUpdateResult { MatchedCount : nat }.

(** [collection.InsertOne]: the tag [bson:"_id,omitempty"] leaves a zero
    identifier out of the document and the driver draws one.  With an error
    the result pointer is nil. *)
Definition InsertOne (t : todo)
  : M (option InsertOneResult * option mongo_error) :=
  call (fun e d =>
          let doc := if IsZero (ID t)
                     then mkTodo (fresh e) (Item t) (Completed t) else t in
          match insert_doc doc d with
          | Some d' => ((Some (mkInsertOneResult (ID doc)), None), d')
          | None => ((None, Some (ServerError "E11000 duplicate key error")), d)
          end)
       (fun err => (None, Some err)).

(** [collection.FindOne(ctx, filter).Decode(&todo)]. *)
Definition FindOne (id : ObjectID) : M (result todo) :=
  call (fun _ d =>
          (match find_by_id id d with
           | Some t => Ok t
           | None => Err ErrNoDocuments
           end, d))
       Err.

(** [collection.UpdateOne]: matching no document is not an error. *)
Definition UpdateOne (id : ObjectID) (u : update)
  : M (option UpdateResult * option mongo_error) :=
  call (fun _ d =>
          ((Some (mkUpdateResult
                    (match find_by_id id d with Some _ => 1 | None => 0 end)),
            None),
           update_first id u d))
       (fun err => (None, Some err)).

(** [collection.FindOneAndUpdate(..., SetReturnDocument(options.After))
    .Decode(&updatedTodo)]. *)
Definition FindOneAndUpdate (id : ObjectID) (u : update) : M (result todo) :=
  call (fun _ d =>
          match find_by_id id d with
          | Some t => (Ok (apply_update u t), update_first id u d)
          | None => (Err ErrNoDocuments, d)
          end)
       Err.

(** [collection.FindOneAndDelete(ctx, filter).Decode(&deletedTodo)]. *)
Definition FindOneAndDelete (id : ObjectID) : M (result todo) :=
  call (fun _ d =>
          match find_by_id id d with
          | Some t => (Ok t, delete_first id d)
          | None => (Err ErrNoDocuments, d)
          end)
       Err.

(** [collection.Find(ctx, bson.M{})]: a cursor over all documents, in the
    scan order of the event. *)
Definition Find : M (result (list todo)) :=
  call (fun e d => (Ok (order e d), d)) Err.

(** [cursor.Decode(&todo)] on a document of this collection. *)
Definition Decode (doc : todo) : result todo := Ok doc.

Definition nil_dereference : string :=
  "runtime error: invalid memory address or nil pointer dereference".

(** Dereference of a Go pointer. *)
Definition deref {A} (p : option A) : M A :=
  match p with
  | Some a => ret a
  | None => panic nil_dereference
  end.

(* ================================================================== *)
(** ** The handlers of [main.go] *)
(* ================================================================== *)

Definition createTodo (body : option json) : M unit :=
  match ShouldBindJSON body zeroPayload with
  | None =>
      JSON StatusBadRequest (H "error" "invalid request body") ;;
      return_
  | Some payload =>
  match Validate_Struct payload with
  | Some err =>
      JSON StatusBadRequest (H "error" (parseValidationError err)) ;;
      return_
  | None =>
      let todo := mkTodo NilObjectID (payloadItem payload)
                         (payloadCompleted payload) in
      ' (insertResult, err) <- InsertOne todo ;;
      match err with
      | Some err => JSON StatusInternalServerError (H "error" (Error_ err))
      | None => ret tt
      end ;;
      res <- deref insertResult ;;
      let todo := mkTodo (InsertedID res) (Item todo) (Completed todo) in
      IndentedJSON StatusCreated (one todo)
  end
  end.

(** The loop [for cursor.Next(ctx) { ... }] of [getTodos]. *)
Fixpoint each (cursor : list todo) (todos : slice todo) : M (slice todo) :=
  match cursor with
  | [] => ret todos
  | doc :: rest =>
      match Decode doc with
      | Err err =>
          JSON StatusInternalServerError (H "error" (Error_ err)) ;;
          return_
      | Ok todo => each rest (append todos todo)
      end
  end.

Definition getTodos : M unit :=
  let todos : slice todo := Some [] in
  r <- Find ;;
  match r with
  | Err err =>
      JSON StatusInternalServerError (H "error" (Error_ err)) ;;
      return_
  | Ok cursor =>
      todos <- each cursor todos ;;
      IndentedJSON StatusOK (many todos)
  end.

Definition getTodo (id : string) : M unit :=
  match ObjectIDFromHex id with
  | None =>
      JSON StatusBadRequest (H "error" "invalid id format") ;;
      return_
  | Some objectId =>
      r <- FindOne objectId ;;
      match r with
      | Err err =>
          if is_ErrNoDocuments err then
            JSON StatusNotFound (H "error" (Error_ err)) ;;
            return_
          else
            JSON StatusInternalServerError (H "error" (Error_ err)) ;;
            return_
      | Ok todoLocal => IndentedJSON StatusOK (one todoLocal)
      end
  end.

Definition toggleTodoStatus (id : string) : M unit :=
  match ObjectIDFromHex id with
  | None =>
      JSON StatusBadRequest (H "error" "invalid id format") ;;
      return_
  | Some objectId =>
      r <- FindOne objectId ;;
      match r with
      | Err err =>
          if is_ErrNoDocuments err then
            JSON StatusNotFound (H "error" "document not found") ;;
            return_
          else
            JSON StatusInternalServerError (H "error" (Error_ err)) ;;
            return_
      | Ok todo =>
          let update := set_completed (negb (Completed todo)) in
          ' (_, err) <- UpdateOne objectId update ;;
          match err with
          | Some err =>
              JSON StatusInternalServerError (H "error" (Error_ err)) ;;
              return_
          | None =>
              let todo := mkTodo (ID todo) (Item todo)
                                 (negb (Completed todo)) in
              IndentedJSON StatusOK (one todo)
          end
      end
  end.

Definition updateTodo (id : string) (body : option json) : M unit :=
  match ObjectIDFromHex id with
  | None =>
      JSON StatusBadRequest (H "error" "invalid id format") ;;
      return_
  | Some objectId =>
  match ShouldBindJSON body zeroPayload with
  | None =>
      JSON StatusBadRequest (H "error" "invalid request body") ;;
      return_
  | Some payload =>
  match Validate_Struct payload with
  | Some err =>
      JSON StatusBadRequest (H "error" (parseValidationError err)) ;;
      return_
  | None =>
      let update := set_item (payloadItem payload) in
      r <- FindOneAndUpdate objectId update ;;
      match r with
      | Err err =>
          if is_ErrNoDocuments err then
            JSON StatusNotFound (H "error" "todo not found") ;;
            return_
          else
            JSON StatusInternalServerError (H "error" (Error_ err)) ;;
            return_
      | Ok updatedTodo => IndentedJSON StatusOK (one updatedTodo)
      end
  end
  end
  end.

Definition deleteTodo (id : string) : M unit :=
  match ObjectIDFromHex id with
  | None =>
      JSON StatusBadRequest (H "error" "invalid id format") ;;
      return_
  | Some objectId =>
      r <- FindOneAndDelete objectId ;;
      match r with
      | Err err =>
          if is_ErrNoDocuments err then
            JSON StatusNotFound (H "error" "document not found") ;;
            return_
          else
            JSON StatusInternalServerError (H "error" (Error_ err)) ;;
            return_
      | Ok deletedTodo => IndentedJSON StatusOK (one deletedTodo)
      end
  end.

(** The routes registered in [main]. *)
Inductive request :=
| GET_todos
| POST_todos (body : option json)
| GET_todo (id : string)
| PATCH_todo (id : string)
| PUT_todo (id : string) (body : option json)
| DELETE_todo (id : string).

Definition router (r : request) : M unit :=
  match r with
  | GET_todos => getTodos
  | POST_todos body => createTodo body
  | GET_todo id => getTodo id
  | PATCH_todo id => toggleTodoStatus id
  | PUT_todo id body => updateTodo id body
  | DELETE_todo id => deleteTodo id
  end.

(* ================================================================== *)
(** ** Serving one request *)
(* ================================================================== *)

(** What one request leaves behind. *)
Record outcome := mkOutcome {
  panicked : bool;
  responses : list response;
  store : list todo;
  issued : nat
}.

(** One request served by the engine of [gin.Default()]: the handler runs
    on a fresh context; the Recovery middleware catches a panic and sets
    status 500 unless the header is already written. *)
Definition serve (h : M unit) (environment : nat -> event)
  (collection : list todo) : outcome :=
  let (f, w) := h (mkWorld environment collection 0 []) in
  let crashed := match f with Panic _ => true | _ => false end in
  mkOutcome crashed
            (match written w with
             | [] => if crashed
                     then [mkResponse StatusInternalServerError nobody]
                     else []
             | ws => ws
             end)
            (docs w) (calls w).

(** The status line of the reply: the header goes out with the first
    write; gin refuses to override it afterwards.  A handler that writes
    nothing replies 200. *)
Definition status_of (rs : list response) : nat :=
  match rs with
  | r :: _ => code r
  | [] => StatusOK
  end.

(** Requests served one after the other, each with its own environment. *)
Fixpoint serve_all (rs : list (request * (nat -> event)))
  (collection : list todo) : list outcome * list todo :=
  match rs with
  | [] => ([], collection)
  | (r, environment) :: rest =>
      let o := serve (router r) environment collection in
      let (os, final) := serve_all rest (store o) in
      (o :: os, final)
  end.

(** [encoding/json] applied to what the handlers write. *)
Definition marshal_todo (t : todo) : json :=
  JObject [("id", JString (Hex (ID t)));
           ("item", JString (Item t));
           ("completed", JBool (Completed t))].

Definition Marshal (b : body) : option json :=
  match b with
  | H key value => Some (JObject [(key, JString value)])
  | one t => Some (marshal_todo t)
  | many None => Some JNull
  | many (Some ts) => Some (JArray (map marshal_todo ts))
  | nobody => None
  end.

(** An environment without concurrent writes and without failures. *)
Definition quiet_event (id : ObjectID) : event :=
  mkEvent [] None id (fun l => l).

Definition quiet (id : ObjectID) : nat -> event := fun _ => quiet_event id.

(* ================================================================== *)
(** ** The older revision of the file *)
(* ================================================================== *)

(** The second source file is an earlier [main.go]: it has no
    [todoPayload] and no validator; [createTodo] and [updateTodo] bind the
    body to a [todo], the other four handlers are the ones above. *)
Module Part000.
Section Older.

(** [bson.ObjectID.UnmarshalJSON], of the driver: the identifier a JSON
    value decodes to, given the one the field holds, or an error. *)
Variable ObjectID_UnmarshalJSON : json -> ObjectID -> option ObjectID.

Definition setTodoField (t : todo) (m : string * json) : option todo :=
  let (key, v) := m in
  if String.eqb (foldName key) "id" then
    match ObjectID_UnmarshalJSON v (ID t) with
    | Some id => Some (mkTodo id (Item t) (Completed t))
    | None => None
    end
  else if String.eqb (foldName key) "item" then
    match v with
    | JString s => Some (mkTodo (ID t) s (Completed t))
    | JNull => Some t
    | _ => None
    end
  else if String.eqb (foldName key) "completed" then
    match v with
    | JBool b => Some (mkTodo (ID t) (Item t) b)
    | JNull => Some t
    | _ => None
    end
  else Some t.

(** [ginContext.ShouldBindJSON(&todo)]. *)
Definition ShouldBindJSON (body : option json) (t : todo) : option todo :=
  match body with
  | None => None
  | Some v => Unmarshal setTodoField v t
  end.

Definition createTodo (body : option json) : M unit :=
  match ShouldBindJSON body zeroTodo with
  | None =>
      JSON StatusBadRequest (H "error" "invalid request body") ;;
      return_
  | Some todo =>
      if String.eqb (Item todo) EmptyString then
        JSON StatusBadRequest (H "error" "item is required") ;;
        return_
      else
        ' (insertResult, err) <- InsertOne todo ;;
        match err with
        | Some err =>
            JSON StatusInternalServerError (H "error" (Error_ err))
        | None => ret tt
        end ;;
        res <- deref insertResult ;;
        let todo := mkTodo (InsertedID res) (Item todo) (Completed todo) in
        IndentedJSON StatusCreated (one todo)
  end.

Definition updateTodo (id : string) (body : option json) : M unit :=
  match ObjectIDFromHex id with
  | None =>
      JSON StatusBadRequest (H "error" "invalid id format") ;;
      return_
  | Some objectId =>
  match ShouldBindJSON body zeroTodo with
  | None =>
      JSON StatusBadRequest (H "error" "invalid request body") ;;
      return_
  | Some todoData =>
      let update := set_item (Item todoData) in
      r <- FindOneAndUpdate objectId update ;;
      match r with
      | Err err =>
          if is_ErrNoDocuments err then
            JSON StatusNotFound (H "error" "todo not found") ;;
            return_
          else
            JSON StatusInternalServerError (H "error" (Error_ err)) ;;
            return_
      | Ok updatedTodo => IndentedJSON StatusOK (one updatedTodo)
      end
  end
  end.

End Older.
End Part000.

(* ================================================================== *)
(** ** Proof steps and sample data *)
(* ================================================================== *)

Ltac unfold_handlers :=
  unfold serve, router, createTodo, getTodos, getTodo, toggleTodoStatus,
         updateTodo, deleteTodo, bind, ret, return_, panic, deref,
         IndentedJSON, JSON, InsertOne, FindOne, UpdateOne, FindOneAndUpdate,
         FindOneAndDelete, Find, call.

Ltac simp :=
  cbn [env docs calls written fst snd app is_ErrNoDocuments Error_
       panicked responses store issued ID Item Completed InsertedID].

(** Rewrite with every hypothesis that decides a test of the handler. *)
Ltac decide_tests :=
  repeat match goal with
         | Heq : ?l = _ |- context [?l] => rewrite Heq; simp
         end.

Ltac run := unfold_handlers; simp; decide_tests.

Definition the_id : string := "65a1b2c3d4e5f60718293a4b".

Definition the_oid : ObjectID :=
  [0x65; 0xa1; 0xb2; 0xc3; 0xd4; 0xe5; 0xf6; 0x07; 0x18; 0x29; 0x3a; 0x4b]%N.

Definition other_oid : ObjectID :=
  [0x65; 0xa1; 0xb2; 0xc3; 0xd4; 0xe5; 0xf6; 0x07; 0x18; 0x29; 0x3a; 0x4c]%N.

Definition milk : todo := mkTodo the_oid "buy milk" false.

Definition bread : todo := mkTodo other_oid "buy bread" true.

(** The document with [Completed] flipped. *)
Definition flipped (t : todo) : todo :=
  mkTodo (ID t) (Item t) (negb (Completed t)).

(** The record a create request was answered with, if it was answered
    201. *)
Definition created_of (o : outcome) : list todo :=
  match responses o with
  | r :: _ =>
      if code r =? StatusCreated then
        match content r with
        | one t => [t]
        | _ => []
        end
      else []
  | [] => []
  end.

Definition succeeded (o : outcome) : bool :=
  status_of (responses o) =? StatusCreated.

(** A run of POST /todos requests, each with its body and environment. *)
Definition posts (creates : list (option json * (nat -> event)))
  : list (request * (nat -> event)) :=
  map (fun c => (POST_todos (fst c), snd c)) creates.

(** A scan in reverse insertion order. *)
Definition backwards (id : ObjectID) : nat -> event :=
  fun _ => mkEvent [] None id (@List.rev todo).

(** The environment in which another request deletes [id] between the
    first and the second call. *)
Definition deleted_meanwhile (id : ObjectID) : nat -> event :=
  fun n => mkEvent (if n =? 1 then [w_delete id] else []) None id (fun l => l).

(** The environment in which the storage layer fails every call. *)
Definition failing (msg : string) : nat -> event :=
  fun _ => mkEvent [] (Some msg) NilObjectID (fun l => l).

Definition letters (n : nat) : string :=
  string_of_list_ascii (repeat "a"%char n).

(** An identifier as the driver makes them: twelve bytes. *)
Definition wellformed (id : ObjectID) : Prop :=
  List.length id = 12 /\ Forall (fun b => (b < 256)%N) id.

(** One line of [parseValidationError]. *)
Definition validation_line (fe : FieldError) : string :=
  ("Field validation for '" ++ Field fe ++ "' failed: '" ++ ActualTag fe
     ++ "' (condition: " ++ Param fe ++ ")" ++ newline)%string.

(** The item is plain ASCII. *)
Definition ascii_only (s : string) : Prop :=
  Forall (fun b => (b < 128)%N) (bytes_of s).

(** The statuses the table of routes allows. *)
Definition allowed (r : request) : list nat :=
  match r with
  | GET_todos => [200; 500]
  | POST_todos _ => [201; 400; 500]
  | GET_todo _ | PATCH_todo _ | PUT_todo _ _ | DELETE_todo _ =>
      [200; 400; 404; 500]
  end.

(** The most driver calls a route makes. *)
Definition budget (r : request) : nat :=
  match r with
  | PATCH_todo _ => 2
  | _ => 1
  end.

(** Case analysis along an outcome lemma: one case per way to end. *)
Ltac ways Ho :=
  cbv zeta in Ho;
  repeat match type of Ho with
         | context [match ?x with _ => _ end] => destruct x eqn:?
         end;
  rewrite Ho; simp.

(** The environment in which the storage layer fails the second call. *)
Definition failing_second (msg : string) : nat -> event :=
  fun n => mkEvent [] (if n =? 1 then Some msg else None) NilObjectID
                   (fun l => l).

(** The JSON values a string field, and a bool field, take. *)
Definition fits_string (v : json) : bool :=
  match v with
  | JString _ | JNull => true
  | _ => false
  end.

Definition fits_bool (v : json) : bool :=
  match v with
  | JBool _ | JNull => true
  | _ => false
  end.

(** A member the payload cannot take: [item] that is not a string, or
    [completed] that is not a bool. *)
Definition misfit (m : string * json) : bool :=
  (String.eqb (foldName (fst m)) "item" && negb (fits_string (snd m)))
  || (String.eqb (foldName (fst m)) "completed" && negb (fits_bool (snd m))).

(** The reply to a payload the validator refuses on tag [t]. *)
Definition refused (t : tag) : response :=
  mkResponse StatusBadRequest
    (H "error" (validation_line (mkFieldError "Item" (tag_name t)
                                               (tag_param t)))).

(** A body [ShouldBindJSON] refuses: none, a value that is neither
    [null] nor an object, or an object with a member of the wrong type. *)
Definition unbindable (body : option json) : bool :=
  match body with
  | None => true
  | Some JNull => false
  | Some (JObject ms) => existsb misfit ms
  | Some _ => true
  end.

(** A stand-in for the driver's decoding of an [id] member: the hex text
    of an identifier, or [null]. *)
Definition unmarshal_hex (v : json) (id : ObjectID) : option ObjectID :=
  match v with
  | JString s => ObjectIDFromHex s
  | JNull => Some id
  | _ => None
  end.

(** The environment in which another request toggles [id] between the
    first and the second call. *)
Definition toggled_meanwhile (id : ObjectID) (b : bool) : nat -> event :=
  fun n => mkEvent (if n =? 1 then [w_update id (set_completed b)] else [])
                   None id (fun l => l).

Example rune_count_ascii : utf8.RuneCountInString "buy milk" = 8.
Proof. reflexivity. Qed.

Example oid_from_hex_short : ObjectIDFromHex "abc" = None.
Proof. reflexivity. Qed.

Example oid_hex_roundtrip :
  option_map Hex (ObjectIDFromHex "65A1b2c3d4e5f60718293a4B")
  = Some "65a1b2c3d4e5f60718293a4b".
Proof. vm_compute. reflexivity. Qed.

Example min_message :
  option_map parseValidationError (Validate_Struct (mkPayload "a" true))
  = Some ("Field validation for 'Item' failed: 'min' (condition: 2)" ++ newline)%string.
Proof. vm_compute. reflexivity. Qed.

Example rune_count_two_bytes :
  utf8.RuneCountInString
    (String (ascii_of_N 0xC3) (String (ascii_of_N 0xA9) "a")) = 2.
Proof. reflexivity. Qed.

(* ================================================================== *)
(** ** Facts about the collection *)
(* ================================================================== *)

Lemma oid_eqb_eq (a b : ObjectID) : oid_eqb a b = true <-> a = b.
Proof.
  unfold oid_eqb. destruct (list_eq_dec N.eq_dec a b); split; congruence.
Qed.

Lemma oid_eqb_refl (a : ObjectID) : oid_eqb a a = true.
Proof. now apply oid_eqb_eq. Qed.

Lemma has_id_update (id : ObjectID) (u : update) (t : todo) :
  has_id id (apply_update u t) = has_id id t.
Proof. now destruct u. Qed.

(** A document found by identifier splits the collection around the first
    match. *)
Lemma find_split (id : ObjectID) (d : list todo) (t : todo) :
  find_by_id id d = Some t ->
  exists pre post,
    d = pre ++ t :: post /\ find_by_id id pre = None /\ has_id id t = true.
Proof.
  unfold find_by_id. induction d as [|x d IH]; cbn; [discriminate|].
  destruct (has_id id x) eqn:Hx.
  - intros [= ->]. now exists [], d.
  - intros Ht. destruct (IH Ht) as (pre & post & -> & Hpre & Hid).
    exists (x :: pre), post. cbn. now rewrite Hx.
Qed.

Lemma find_skip (id : ObjectID) (pre l : list todo) :
  find_by_id id pre = None -> find_by_id id (pre ++ l) = find_by_id id l.
Proof.
  unfold find_by_id. induction pre as [|x pre IH]; cbn; [easy|].
  destruct (has_id id x); [discriminate | exact IH].
Qed.

Lemma find_here (id : ObjectID) (pre post : list todo) (t : todo) :
  find_by_id id pre = None -> has_id id t = true ->
  find_by_id id (pre ++ t :: post) = Some t.
Proof.
  intros Hpre Ht. rewrite (find_skip _ _ _ Hpre). unfold find_by_id. cbn.
  now rewrite Ht.
Qed.

Lemma update_first_here (id : ObjectID) (u : update) (pre post : list todo)
  (t : todo) :
  find_by_id id pre = None -> has_id id t = true ->
  update_first id u (pre ++ t :: post) = pre ++ apply_update u t :: post.
Proof.
  unfold find_by_id. intros Hpre Ht.
  induction pre as [|x pre IH]; cbn in *.
  - now rewrite Ht.
  - destruct (has_id id x); [discriminate|]. now rewrite IH.
Qed.

Lemma delete_first_here (id : ObjectID) (pre post : list todo) (t : todo) :
  find_by_id id pre = None -> has_id id t = true ->
  delete_first id (pre ++ t :: post) = pre ++ post.
Proof.
  unfold find_by_id. intros Hpre Ht.
  induction pre as [|x pre IH]; cbn in *.
  - now rewrite Ht.
  - destruct (has_id id x); [discriminate|]. now rewrite IH.
Qed.

Lemma update_first_absent (id : ObjectID) (u : update) (d : list todo) :
  find_by_id id d = None -> update_first id u d = d.
Proof.
  unfold find_by_id. induction d as [|x d IH]; cbn; [easy|].
  destruct (has_id id x); [discriminate|]. intros Hd. now rewrite IH.
Qed.

Lemma delete_first_absent (id : ObjectID) (d : list todo) :
  find_by_id id d = None -> delete_first id d = d.
Proof.
  unfold find_by_id. induction d as [|x d IH]; cbn; [easy|].
  destruct (has_id id x); [discriminate|]. intros Hd. now rewrite IH.
Qed.

Lemma find_absent_iff (id : ObjectID) (d : list todo) :
  find_by_id id d = None <-> ~ In id (map ID d).
Proof.
  unfold find_by_id. induction d as [|x d IH]; cbn; [tauto|].
  unfold has_id at 1. destruct (oid_eqb (ID x) id) eqn:Hx.
  - apply oid_eqb_eq in Hx. split; [discriminate | tauto].
  - rewrite IH. split; [|tauto]. intros Hd [Heq | Hin]; [|tauto].
    subst id. now rewrite oid_eqb_refl in Hx.
Qed.

Lemma existsb_has_id (id : ObjectID) (d : list todo) :
  existsb (has_id id) d = false <-> find_by_id id d = None.
Proof.
  unfold find_by_id. induction d as [|x d IH]; cbn; [tauto|].
  destruct (has_id id x); cbn; [split; discriminate | exact IH].
Qed.

Lemma map_ID_update_first (id : ObjectID) (u : update) (d : list todo) :
  map ID (update_first id u d) = map ID d.
Proof.
  induction d as [|x d IH]; cbn; [easy|].
  destruct (has_id id x); cbn; [now destruct u | now rewrite IH].
Qed.

Lemma delete_first_incl (id x : ObjectID) (d : list todo) :
  In x (map ID (delete_first id d)) -> In x (map ID d).
Proof.
  induction d as [|y d IH]; cbn; [easy|].
  destruct (has_id id y); cbn; tauto.
Qed.

Lemma unique_ids_delete_first (id : ObjectID) (d : list todo) :
  unique_ids d -> unique_ids (delete_first id d).
Proof.
  unfold unique_ids. induction d as [|x d IH]; cbn; [easy|].
  intros Hnd. inversion Hnd as [|? ? Hx Hd]; subst.
  destruct (has_id id x); cbn; [assumption|].
  constructor; [|auto]. intros Hin. now apply Hx, (delete_first_incl id).
Qed.

Lemma unique_ids_insert (t : todo) (d d' : list todo) :
  unique_ids d -> insert_doc t d = Some d' -> unique_ids d'.
Proof.
  unfold unique_ids, insert_doc. intros Hnd.
  destruct (existsb (has_id (ID t)) d) eqn:Hex; [discriminate|].
  intros [= <-]. rewrite map_app. cbn.
  apply existsb_has_id, find_absent_iff in Hex.
  apply NoDup_app; [assumption | repeat constructor; easy |].
  intros x Hx [<- | []]. contradiction.
Qed.

Lemma unique_ids_write (w : write) (d : list todo) :
  unique_ids d -> unique_ids (apply_write d w).
Proof.
  intros Hd. destruct w as [t | id u | id]; cbn.
  - destruct (insert_doc t d) eqn:Hi; [|assumption].
    now apply (unique_ids_insert t d).
  - unfold unique_ids. now rewrite map_ID_update_first.
  - now apply unique_ids_delete_first.
Qed.

Lemma unique_ids_arrive (e : event) (d : list todo) :
  unique_ids d -> unique_ids (arrive e d).
Proof.
  unfold arrive. revert d.
  induction (before e) as [|w ws IH]; cbn; [easy|].
  intros d Hd. now apply IH, unique_ids_write.
Qed.

(** Once removed, an identifier of a collection with distinct identifiers
    is gone. *)
Lemma find_after_delete (id : ObjectID) (d : list todo) :
  unique_ids d -> find_by_id id (delete_first id d) = None.
Proof.
  unfold unique_ids, find_by_id.
  induction d as [|x d IH]; cbn; [easy|]. intros Hnd.
  inversion Hnd as [|? ? Hx Hd]; subst.
  destruct (has_id id x) eqn:Hid.
  - apply find_absent_iff. unfold has_id in Hid. apply oid_eqb_eq in Hid.
    now subst id.
  - cbn. rewrite Hid. auto.
Qed.

(* ================================================================== *)
(** ** Identifiers that do not parse, identifiers that match nothing *)
(* ================================================================== *)

Example the_id_parses : ObjectIDFromHex the_id = Some the_oid.
Proof. reflexivity. Qed.

(** C3. A request to GET, PATCH, PUT or DELETE /todos/:id whose [:id] is
    not a hexadecimal ObjectID is answered with status 400 and the message
    "invalid id format", whatever the body, the environment and the
    collection; no driver call is issued and the collection is left as it
    was. *)
Theorem invalid_id_is_bad_request
  (id : string) (body : option json) (environment : nat -> event)
  (collection : list todo) :
  ObjectIDFromHex id = None ->
  forall r,
    In r [GET_todo id; PATCH_todo id; PUT_todo id body; DELETE_todo id] ->
    serve (router r) environment collection
    = mkOutcome false
        [mkResponse StatusBadRequest (H "error" "invalid id format")]
        collection 0.
Proof.
  intros Hid r Hr. cbn [In] in Hr.
  repeat (destruct Hr as [<- | Hr]); try contradiction; now run.
Qed.

Lemma invalid_id_is_bad_request_witness :
  ObjectIDFromHex "42" = None /\
  serve (router (PUT_todo "42" None)) (quiet the_oid) [milk]
  = mkOutcome false
      [mkResponse StatusBadRequest (H "error" "invalid id format")]
      [milk] 0.
Proof.
  split; [reflexivity|].
  apply (invalid_id_is_bad_request "42" None (quiet the_oid) [milk]);
    [reflexivity | cbn; tauto].
Defined.

(** C4. A request to GET, PATCH, PUT (with a payload that binds and
    validates) or DELETE /todos/:id whose [:id] is well formed and matches
    no document when the call reaches the collection is answered with
    status 404 and an error message, after one driver call, and leaves the
    collection as the call found it; without concurrent writes that is the
    collection the request started from. *)
Theorem missing_record_is_not_found
  (id : string) (oid : ObjectID) (body : option json) (payload : todoPayload)
  (environment : nat -> event) (collection : list todo) :
  ObjectIDFromHex id = Some oid ->
  ShouldBindJSON body zeroPayload = Some payload ->
  Validate_Struct payload = None ->
  fault (environment 0) = None ->
  find_by_id oid (arrive (environment 0) collection) = None ->
  forall r,
    In r [GET_todo id; PATCH_todo id; PUT_todo id body; DELETE_todo id] ->
    let o := serve (router r) environment collection in
    panicked o = false /\
    (exists msg,
        responses o = [mkResponse StatusNotFound (H "error" msg)]) /\
    status_of (responses o) = 404 /\
    issued o = 1 /\
    store o = arrive (environment 0) collection /\
    (before (environment 0) = [] -> store o = collection).
Proof.
  intros Hid Hbind Hvalid Hfault Hfind r Hr. cbn [In] in Hr.
  assert (Hcalm : before (environment 0) = [] ->
                  arrive (environment 0) collection = collection)
    by (unfold arrive; now intros ->).
  repeat (destruct Hr as [<- | Hr]); try contradiction; run;
    (repeat split; [eexists; reflexivity | exact Hcalm]).
Qed.

Lemma missing_record_is_not_found_witness :
  let o := serve (router (DELETE_todo the_id)) (quiet the_oid) [bread] in
  panicked o = false /\
  (exists msg, responses o = [mkResponse StatusNotFound (H "error" msg)]) /\
  status_of (responses o) = 404 /\
  issued o = 1 /\
  store o = arrive (quiet the_oid 0) [bread] /\
  (before (quiet the_oid 0) = [] -> store o = [bread]).
Proof.
  apply (missing_record_is_not_found the_id the_oid
           (Some (JObject [("item", JString "buy eggs")]))
           (mkPayload "buy eggs" false) (quiet the_oid) [bread]);
    try reflexivity.
  cbn; tauto.
Defined.

(* ================================================================== *)
(** ** Replace, toggle, delete *)
(* ================================================================== *)

(** C6. PUT /todos/:id with a payload that binds and validates, on a
    document the call finds: the reply is 200 with the document after the
    update; in the collection the first document with that identifier has
    its [Item] replaced by the payload's, its identifier and [Completed]
    are kept, every other document is untouched; a payload with the same
    [item] and any other [completed] gives the same outcome. *)
Theorem update_changes_only_item
  (id : string) (oid : ObjectID) (body : option json) (payload : todoPayload)
  (environment : nat -> event) (collection : list todo) (t : todo) :
  ObjectIDFromHex id = Some oid ->
  ShouldBindJSON body zeroPayload = Some payload ->
  Validate_Struct payload = None ->
  fault (environment 0) = None ->
  find_by_id oid (arrive (environment 0) collection) = Some t ->
  let o := serve (updateTodo id body) environment collection in
  let t' := mkTodo (ID t) (payloadItem payload) (Completed t) in
  panicked o = false /\
  responses o = [mkResponse StatusOK (one t')] /\
  find_by_id oid (store o) = Some t' /\
  (exists pre post,
      arrive (environment 0) collection = pre ++ t :: post /\
      store o = pre ++ t' :: post) /\
  (forall body' payload',
      ShouldBindJSON body' zeroPayload = Some payload' ->
      payloadItem payload' = payloadItem payload ->
      serve (updateTodo id body') environment collection = o).
Proof.
  intros Hid Hbind Hvalid Hfault Hfind.
  destruct (find_split _ _ _ Hfind) as (pre & post & Hd & Hpre & Ht).
  assert (Hrun : forall b p,
             ShouldBindJSON b zeroPayload = Some p ->
             payloadItem p = payloadItem payload ->
             serve (updateTodo id b) environment collection
             = mkOutcome false
                 [mkResponse StatusOK
                    (one (mkTodo (ID t) (payloadItem payload) (Completed t)))]
                 (pre ++ mkTodo (ID t) (payloadItem payload) (Completed t)
                      :: post) 1).
  { intros b p Hb Hp.
    assert (Hv : Validate_Struct p = None)
      by (unfold Validate_Struct in *; now rewrite Hp).
    rewrite Hd in Hfind. run.
    rewrite (update_first_here _ _ _ _ _ Hpre Ht). cbn.
    now rewrite ?Hp. }
  cbv zeta. rewrite (Hrun body payload Hbind eq_refl). simp.
  repeat split.
  - now apply find_here.
  - now exists pre, post.
  - intros b p Hb Hp. now apply (Hrun b p).
Qed.

Lemma update_changes_only_item_witness :
  let body := Some (JObject [("item", JString "buy oat milk");
                             ("completed", JBool true)]) in
  let o := serve (updateTodo the_id body) (quiet the_oid) [bread; milk] in
  let t' := mkTodo the_oid "buy oat milk" false in
  panicked o = false /\
  responses o = [mkResponse StatusOK (one t')] /\
  find_by_id the_oid (store o) = Some t' /\
  (exists pre post,
      arrive (quiet the_oid 0) [bread; milk] = pre ++ milk :: post /\
      store o = pre ++ t' :: post) /\
  (forall body' payload',
      ShouldBindJSON body' zeroPayload = Some payload' ->
      payloadItem payload' = "buy oat milk" ->
      serve (updateTodo the_id body') (quiet the_oid) [bread; milk] = o).
Proof.
  apply (update_changes_only_item the_id the_oid
           (Some (JObject [("item", JString "buy oat milk");
                           ("completed", JBool true)]))
           (mkPayload "buy oat milk" true) (quiet the_oid) [bread; milk] milk);
    reflexivity.
Defined.

Lemma flipped_twice (t : todo) : flipped (flipped t) = t.
Proof. destruct t as [i s c]. unfold flipped. cbn. now rewrite negb_involutive. Qed.

(** One PATCH on a document the first call finds, in a calm environment. *)
Lemma toggle_once
  (id : string) (oid : ObjectID) (environment : nat -> event)
  (pre post : list todo) (t : todo) :
  ObjectIDFromHex id = Some oid ->
  calm (environment 0) -> calm (environment 1) ->
  find_by_id oid pre = None -> has_id oid t = true ->
  serve (toggleTodoStatus id) environment (pre ++ t :: post)
  = mkOutcome false [mkResponse StatusOK (one (flipped t))]
      (pre ++ flipped t :: post) 2.
Proof.
  intros Hid [Hb0 Hf0] [Hb1 Hf1] Hpre Ht.
  unfold_handlers; simp. unfold arrive. decide_tests. cbn [fold_left].
  rewrite (find_here _ _ _ _ Hpre Ht). simp. decide_tests. cbn [fold_left].
  now rewrite (update_first_here _ _ _ _ _ Hpre Ht).
Qed.

(** C7. PATCH /todos/:id twice in a row on an existing document, with no
    concurrent write and no storage failure: the first reply is 200 with
    the document whose [Completed] is negated, and the collection differs
    from the original in that one field of that one document only; the
    second reply is 200 with the original document and the collection is
    the original one again. *)
Theorem toggle_twice_restores
  (id : string) (oid : ObjectID) (first second : nat -> event)
  (collection : list todo) (t : todo) :
  ObjectIDFromHex id = Some oid ->
  calm (first 0) -> calm (first 1) ->
  calm (second 0) -> calm (second 1) ->
  find_by_id oid collection = Some t ->
  let o1 := serve (toggleTodoStatus id) first collection in
  let o2 := serve (toggleTodoStatus id) second (store o1) in
  responses o1 = [mkResponse StatusOK (one (flipped t))] /\
  (exists pre post,
      collection = pre ++ t :: post /\
      store o1 = pre ++ flipped t :: post) /\
  ID (flipped t) = ID t /\ Item (flipped t) = Item t /\
  Completed (flipped t) = negb (Completed t) /\
  responses o2 = [mkResponse StatusOK (one t)] /\
  store o2 = collection /\
  panicked o1 = false /\ panicked o2 = false.
Proof.
  intros Hid H0 H1 H2 H3 Hfind.
  destruct (find_split _ _ _ Hfind) as (pre & post & -> & Hpre & Ht).
  cbv zeta.
  rewrite (toggle_once id oid first pre post t Hid H0 H1 Hpre Ht). simp.
  rewrite (toggle_once id oid second pre post (flipped t) Hid H2 H3 Hpre Ht).
  simp. rewrite flipped_twice. repeat split. now exists pre, post.
Qed.

Lemma toggle_twice_restores_witness :
  let o1 := serve (toggleTodoStatus the_id) (quiet the_oid) [bread; milk] in
  let o2 := serve (toggleTodoStatus the_id) (quiet the_oid) (store o1) in
  responses o1 = [mkResponse StatusOK (one (flipped milk))] /\
  (exists pre post,
      [bread; milk] = pre ++ milk :: post /\
      store o1 = pre ++ flipped milk :: post) /\
  ID (flipped milk) = ID milk /\ Item (flipped milk) = Item milk /\
  Completed (flipped milk) = negb (Completed milk) /\
  responses o2 = [mkResponse StatusOK (one milk)] /\
  store o2 = [bread; milk] /\
  panicked o1 = false /\ panicked o2 = false.
Proof.
  apply (toggle_twice_restores the_id the_oid (quiet the_oid) (quiet the_oid)
           [bread; milk] milk);
    try reflexivity; split; reflexivity.
Defined.

(** C8. DELETE /todos/:id on a document of the collection, with no
    concurrent write and no storage failure: the reply is 200 with the
    document as it was stored, the document is removed and the others are
    kept; a GET on the same identifier right after is answered 404. *)
Theorem delete_then_get_is_not_found
  (id : string) (oid : ObjectID) (first second : nat -> event)
  (collection : list todo) (t : todo) :
  ObjectIDFromHex id = Some oid ->
  unique_ids collection ->
  calm (first 0) -> calm (second 0) ->
  find_by_id oid collection = Some t ->
  let o1 := serve (deleteTodo id) first collection in
  let o2 := serve (getTodo id) second (store o1) in
  responses o1 = [mkResponse StatusOK (one t)] /\
  (exists pre post,
      collection = pre ++ t :: post /\ store o1 = pre ++ post) /\
  responses o2
  = [mkResponse StatusNotFound (H "error" "mongo: no documents in result")] /\
  status_of (responses o2) = 404 /\
  store o2 = store o1 /\
  panicked o1 = false /\ panicked o2 = false.
Proof.
  intros Hid Huniq [Hb0 Hf0] [Hb1 Hf1] Hfind.
  assert (H1 : serve (deleteTodo id) first collection
               = mkOutcome false [mkResponse StatusOK (one t)]
                   (delete_first oid collection) 1).
  { unfold_handlers; simp. unfold arrive. decide_tests. cbn [fold_left].
    now decide_tests. }
  assert (H2 : serve (getTodo id) second (delete_first oid collection)
               = mkOutcome false
                   [mkResponse StatusNotFound
                      (H "error" "mongo: no documents in result")]
                   (delete_first oid collection) 1).
  { pose proof (find_after_delete oid collection Huniq) as Hgone.
    unfold_handlers; simp. unfold arrive. decide_tests. cbn [fold_left].
    now decide_tests. }
  destruct (find_split _ _ _ Hfind) as (pre & post & Hd & Hpre & Ht).
  cbv zeta. rewrite H1. simp. rewrite H2. simp.
  repeat split. exists pre, post. split; [assumption|].
  rewrite Hd. now apply delete_first_here.
Qed.

Lemma delete_then_get_is_not_found_witness :
  let o1 := serve (deleteTodo the_id) (quiet the_oid) [bread; milk] in
  let o2 := serve (getTodo the_id) (quiet the_oid) (store o1) in
  responses o1 = [mkResponse StatusOK (one milk)] /\
  (exists pre post,
      [bread; milk] = pre ++ milk :: post /\ store o1 = pre ++ post) /\
  responses o2
  = [mkResponse StatusNotFound (H "error" "mongo: no documents in result")] /\
  status_of (responses o2) = 404 /\
  store o2 = store o1 /\
  panicked o1 = false /\ panicked o2 = false.
Proof.
  apply (delete_then_get_is_not_found the_id the_oid (quiet the_oid)
           (quiet the_oid) [bread; milk] milk);
    try reflexivity; try (split; reflexivity).
  unfold unique_ids. cbn. repeat constructor; cbn; intuition discriminate.
Defined.

(* ================================================================== *)
(** ** Create and list *)
(* ================================================================== *)

Lemma IsZero_Nil : IsZero NilObjectID = true.
Proof. apply oid_eqb_refl. Qed.

(** Every way a POST /todos can end. *)
Lemma createTodo_outcome
  (body : option json) (environment : nat -> event) (collection : list todo) :
  let o := serve (createTodo body) environment collection in
  let e := environment 0 in
  match ShouldBindJSON body zeroPayload with
  | None =>
      o = mkOutcome false
            [mkResponse StatusBadRequest (H "error" "invalid request body")]
            collection 0
  | Some payload =>
      match Validate_Struct payload with
      | Some err =>
          o = mkOutcome false
                [mkResponse StatusBadRequest
                   (H "error" (parseValidationError err))]
                collection 0
      | None =>
          match fault e with
          | Some msg =>
              o = mkOutcome true
                    [mkResponse StatusInternalServerError (H "error" msg)]
                    (arrive e collection) 1
          | None =>
              let t := mkTodo (fresh e) (payloadItem payload)
                              (payloadCompleted payload) in
              if existsb (has_id (fresh e)) (arrive e collection)
              then o = mkOutcome true
                         [mkResponse StatusInternalServerError
                            (H "error" "E11000 duplicate key error")]
                         (arrive e collection) 1
              else o = mkOutcome false [mkResponse StatusCreated (one t)]
                         (arrive e collection ++ [t]) 1
          end
      end
  end.
Proof.
  cbv zeta.
  destruct (ShouldBindJSON body zeroPayload) as [payload|] eqn:Hbind;
    [|now run].
  destruct (Validate_Struct payload) as [err|] eqn:Hvalid; [now run|].
  destruct (fault (environment 0)) as [msg|] eqn:Hfault; [now run|].
  destruct (existsb _ _) eqn:Hdup;
    unfold_handlers; simp; decide_tests; rewrite IsZero_Nil;
    unfold insert_doc; simp; now rewrite Hdup.
Qed.

(** The loop of [getTodos] appends the documents of the cursor in order. *)
Lemma each_appends (cursor l : list todo) (w : world) :
  each cursor (Some l) w = (Next (Some (l ++ cursor)), w).
Proof.
  revert l. induction cursor as [|doc rest IH]; intros l; cbn.
  - now rewrite app_nil_r.
  - rewrite IH, <- app_assoc. reflexivity.
Qed.

Lemma getTodos_calm (environment : nat -> event) (collection : list todo) :
  calm (environment 0) ->
  serve getTodos environment collection
  = mkOutcome false
      [mkResponse StatusOK
         (many (Some (order (environment 0) collection)))]
      collection 1.
Proof.
  intros [Hb Hf]. unfold_handlers; simp. unfold arrive. decide_tests.
  cbn [fold_left]. now rewrite each_appends.
Qed.

(** Without concurrent writes a POST adds exactly the record it reports. *)
Lemma createTodo_adds (body : option json) (environment : nat -> event)
  (collection : list todo) :
  before (environment 0) = [] ->
  let o := serve (createTodo body) environment collection in
  store o = collection ++ created_of o /\
  List.length (created_of o) = (if succeeded o then 1 else 0) /\
  (unique_ids collection -> unique_ids (store o)).
Proof.
  intros Hb. pose proof (createTodo_outcome body environment collection) as Ho.
  cbv zeta in *. unfold arrive in Ho. rewrite Hb in Ho. cbn [fold_left] in Ho.
  destruct (ShouldBindJSON body zeroPayload) as [payload|].
  2:{ rewrite Ho. cbn. now rewrite app_nil_r. }
  destruct (Validate_Struct payload) as [err|].
  { rewrite Ho. cbn. now rewrite app_nil_r. }
  destruct (fault (environment 0)) as [msg|].
  { rewrite Ho. cbn. now rewrite app_nil_r. }
  destruct (existsb _ _) eqn:Hdup; rewrite Ho; cbn.
  - now rewrite app_nil_r.
  - repeat split. intros Hu.
    apply (unique_ids_insert
             (mkTodo (fresh (environment 0)) (payloadItem payload)
                     (payloadCompleted payload)) collection); [assumption|].
    unfold insert_doc. cbn. now rewrite Hdup.
Qed.

Lemma posts_add (creates : list (option json * (nat -> event)))
  (collection : list todo) :
  (forall c, In c creates -> before (snd c 0) = []) ->
  unique_ids collection ->
  let (os, final) := serve_all (posts creates) collection in
  final = collection ++ flat_map created_of os /\
  List.length (flat_map created_of os) = List.length (filter succeeded os) /\
  unique_ids final.
Proof.
  revert collection.
  induction creates as [|[body environment] rest IH]; intros collection Hq Hu.
  - cbn. now rewrite app_nil_r.
  - cbn [posts map serve_all fst snd router].
    destruct (createTodo_adds body environment collection) as (Hs & Hl & Hk).
    { apply (Hq (body, environment)). now left. }
    specialize (IH (store (serve (createTodo body) environment collection))).
    fold (posts rest).
    destruct (serve_all (posts rest) _) as [os final].
    destruct IH as (Hf & Hn & Hfu).
    { intros c Hc. apply Hq. now right. }
    { auto. }
    cbn [flat_map filter]. repeat split.
    + now rewrite Hf, Hs, <- app_assoc.
    + rewrite length_app, Hl, Hn.
      now destruct (succeeded _).
    + assumption.
Qed.

(** C9. GET /todos on the empty collection is answered 200 with the empty
    slice, which marshals to the JSON array [[]] and not to [null].  After
    a run of POST requests from the empty collection, with no concurrent
    write (so no delete), a GET /todos is answered 200 with as many
    records as POSTs were answered 201; the records are those the 201
    replies carried, each once, in the scan order the storage layer
    chooses. *)
Theorem list_after_creates
  (creates : list (option json * (nat -> event)))
  (listing : nat -> event) :
  (forall c, In c creates -> before (snd c 0) = []) ->
  calm (listing 0) ->
  (forall l, Permutation (order (listing 0) l) l) ->
  let (os, final) := serve_all (posts creates) [] in
  responses (serve getTodos listing [])
  = [mkResponse StatusOK (many (Some []))] /\
  Marshal (many (Some [])) = Some (JArray []) /\
  exists ts,
    responses (serve getTodos listing final)
    = [mkResponse StatusOK (many (Some ts))] /\
    List.length ts = List.length (filter succeeded os) /\
    Permutation ts (flat_map created_of os) /\
    NoDup (map ID ts).
Proof.
  intros Hq Hcalm Hperm.
  pose proof (posts_add creates [] Hq (NoDup_nil _)) as Hadd.
  destruct (serve_all (posts creates) []) as [os final].
  destruct Hadd as (Hf & Hn & Hu). change ([] ++ ?l) with l in Hf.
  rewrite !getTodos_calm by assumption. cbn [responses].
  split; [|split; [reflexivity|]].
  - now rewrite (Permutation_nil (Permutation_sym (Hperm []))).
  - exists (order (listing 0) final). split; [reflexivity|].
    pose proof (Hperm final) as Hp. repeat split.
    + rewrite (Permutation_length Hp), <- Hn. now rewrite Hf.
    + now rewrite <- Hf.
    + apply (Permutation_NoDup (l := map ID final)); [|exact Hu].
      apply Permutation_map, Permutation_sym, Hp.
Qed.

Lemma list_after_creates_witness :
  let creates :=
    [(Some (JObject [("item", JString "buy milk")]), quiet the_oid);
     (Some (JObject [("item", JString "x")]), quiet the_oid);
     (Some (JObject [("item", JString "buy eggs")]), quiet the_oid);
     (Some (JObject [("item", JString "buy bread");
                     ("completed", JBool true)]), quiet other_oid)] in
  let listing := backwards NilObjectID in
  (forall c, In c creates -> before (snd c 0) = []) /\
  let (os, final) := serve_all (posts creates) [] in
  responses (serve getTodos listing [])
  = [mkResponse StatusOK (many (Some []))] /\
  Marshal (many (Some [])) = Some (JArray []) /\
  exists ts,
    responses (serve getTodos listing final)
    = [mkResponse StatusOK (many (Some ts))] /\
    List.length ts = List.length (filter succeeded os) /\
    Permutation ts (flat_map created_of os) /\
    NoDup (map ID ts).
Proof.
  cbv zeta.
  assert (Hq : forall c,
             In c [(Some (JObject [("item", JString "buy milk")]),
                    quiet the_oid);
                   (Some (JObject [("item", JString "x")]), quiet the_oid);
                   (Some (JObject [("item", JString "buy eggs")]),
                    quiet the_oid);
                   (Some (JObject [("item", JString "buy bread");
                                   ("completed", JBool true)]),
                    quiet other_oid)] ->
             before (snd c 0) = []).
  { intros c Hc. cbn [In] in Hc.
    repeat (destruct Hc as [<- | Hc]); try contradiction; reflexivity. }
  split; [exact Hq|].
  apply (list_after_creates _ (backwards NilObjectID) Hq).
  - split; reflexivity.
  - intros l. apply Permutation_sym, Permutation_rev.
Defined.

Example list_after_creates_run :
  map (fun o => status_of (responses o))
      (fst (serve_all
              (posts [(Some (JObject [("item", JString "buy milk")]),
                       quiet the_oid);
                      (Some (JObject [("item", JString "x")]), quiet the_oid);
                      (Some (JObject [("item", JString "buy eggs")]),
                       quiet the_oid);
                      (Some (JObject [("item", JString "buy bread");
                                      ("completed", JBool true)]),
                       quiet other_oid)]) []))
  = [201; 400; 500; 201] /\
  responses
    (serve getTodos (backwards NilObjectID)
       (snd (serve_all
               (posts [(Some (JObject [("item", JString "buy milk")]),
                        quiet the_oid);
                       (Some (JObject [("item", JString "buy bread");
                                       ("completed", JBool true)]),
                        quiet other_oid)]) [])))
  = [mkResponse StatusOK (many (Some [bread; milk]))].
Proof. vm_compute. split; reflexivity. Qed.

(* ================================================================== *)
(** ** Validation *)
(* ================================================================== *)

Lemma rune_count_positive (s : string) :
  0 < utf8.RuneCountInString s -> String.eqb s EmptyString = false.
Proof. destruct s; cbn; [lia | reflexivity]. Qed.

(** What the validator answers, by the number of runes of [Item]. *)
Lemma Validate_Struct_by_length (p : todoPayload) :
  let n := utf8.RuneCountInString (payloadItem p) in
  (2 <= n <= 100 -> Validate_Struct p = None) /\
  (n = 1 ->
   Validate_Struct p
   = Some (ValidationErrors [mkFieldError "Item" "min" "2"])) /\
  (100 < n ->
   Validate_Struct p
   = Some (ValidationErrors [mkFieldError "Item" "max" "100"])).
Proof.
  cbv zeta. unfold Validate_Struct, Item_tags. cbn [validateField holds].
  repeat split; intros Hn;
    rewrite rune_count_positive by lia; cbn [negb].
  - destruct Hn as [Hlo Hhi].
    apply Nat.leb_le in Hlo, Hhi. now rewrite Hlo, Hhi.
  - now rewrite Hn.
  - apply Nat.leb_gt in Hn. now rewrite Hn.
Qed.

(** A member whose key is not [completed] leaves [Completed] alone. *)
Lemma decode_keeps_completed (ms : list (string * json)) (p q : todoPayload) :
  (forall k v, In (k, v) ms -> foldName k <> "completed") ->
  decodeMembers setPayloadField ms p = Some q ->
  payloadCompleted q = payloadCompleted p.
Proof.
  revert p. induction ms as [|[k v] ms IH]; intros p Hk; cbn.
  - now intros [= ->].
  - destruct (String.eqb (foldName k) "item").
    + destruct v; try discriminate; intros Hq;
        rewrite (IH _ (fun k' v' Hin => Hk k' v' (or_intror Hin)) Hq);
        reflexivity.
    + destruct (String.eqb_spec (foldName k) "completed") as [Heq | _].
      * exfalso. apply (Hk k v); [now left | exact Heq].
      * apply IH. intros k' v' Hin. apply (Hk k' v'). now right.
Qed.

(** The boundaries in [main.go].  POST /todos with a body that binds to a
    payload: an [item] of one
    character, or of 101, is answered 400 with the validator's message
    for the failed tag and nothing is stored; an [item] of 2 or of 100
    characters is answered 201 with the stored record when the insert
    succeeds (no storage failure, the drawn identifier is free); when the
    body is an object without a [completed] member the payload's
    [Completed] is false.  Characters are counted as the validator counts
    them, in runes. *)
Theorem create_item_length_boundaries
  (body : option json) (payload : todoPayload) (environment : nat -> event)
  (collection : list todo) :
  ShouldBindJSON body zeroPayload = Some payload ->
  let n := utf8.RuneCountInString (payloadItem payload) in
  let e := environment 0 in
  let o := serve (createTodo body) environment collection in
  (n = 1 ->
   o = mkOutcome false
         [mkResponse StatusBadRequest
            (H "error"
               ("Field validation for 'Item' failed: 'min' (condition: 2)"
                  ++ newline)%string)]
         collection 0) /\
  (n = 101 ->
   o = mkOutcome false
         [mkResponse StatusBadRequest
            (H "error"
               ("Field validation for 'Item' failed: 'max' (condition: 100)"
                  ++ newline)%string)]
         collection 0) /\
  (n = 2 \/ n = 100 ->
   fault e = None ->
   find_by_id (fresh e) (arrive e collection) = None ->
   let t := mkTodo (fresh e) (payloadItem payload)
                   (payloadCompleted payload) in
   o = mkOutcome false [mkResponse StatusCreated (one t)]
         (arrive e collection ++ [t]) 1) /\
  (forall ms,
      body = Some (JObject ms) ->
      (forall k v, In (k, v) ms -> foldName k <> "completed") ->
      payloadCompleted payload = false).
Proof.
  intros Hbind. cbv zeta.
  pose proof (createTodo_outcome body environment collection) as Ho.
  cbv zeta in Ho. rewrite Hbind in Ho.
  destruct (Validate_Struct_by_length payload) as (Hok & Hmin & Hmax).
  repeat split.
  - intros Hn. now rewrite (Hmin Hn) in Ho.
  - intros Hn. rewrite Hmax in Ho by lia. exact Ho.
  - intros Hn Hfault Hfree. rewrite Hok, Hfault in Ho by lia.
    apply existsb_has_id in Hfree. now rewrite Hfree in Ho.
  - intros ms -> Hk. cbn in Hbind.
    now rewrite (decode_keeps_completed ms zeroPayload payload Hk Hbind).
Qed.

Lemma create_item_length_boundaries_witness :
  let body := Some (JObject [("item", JString "ab")]) in
  let payload := mkPayload "ab" false in
  let n := utf8.RuneCountInString (payloadItem payload) in
  let e := quiet the_oid 0 in
  let o := serve (createTodo body) (quiet the_oid) [bread] in
  ShouldBindJSON body zeroPayload = Some payload /\
  (n = 1 ->
   o = mkOutcome false
         [mkResponse StatusBadRequest
            (H "error"
               ("Field validation for 'Item' failed: 'min' (condition: 2)"
                  ++ newline)%string)]
         [bread] 0) /\
  (n = 101 ->
   o = mkOutcome false
         [mkResponse StatusBadRequest
            (H "error"
               ("Field validation for 'Item' failed: 'max' (condition: 100)"
                  ++ newline)%string)]
         [bread] 0) /\
  (n = 2 \/ n = 100 ->
   fault e = None ->
   find_by_id (fresh e) (arrive e [bread]) = None ->
   let t := mkTodo (fresh e) (payloadItem payload)
                   (payloadCompleted payload) in
   o = mkOutcome false [mkResponse StatusCreated (one t)]
         (arrive e [bread] ++ [t]) 1) /\
  (forall ms,
      body = Some (JObject ms) ->
      (forall k v, In (k, v) ms -> foldName k <> "completed") ->
      payloadCompleted payload = false).
Proof.
  split; [reflexivity|].
  apply (create_item_length_boundaries
           (Some (JObject [("item", JString "ab")])) (mkPayload "ab" false)
           (quiet the_oid) [bread]).
  reflexivity.
Defined.

Example create_boundaries_run :
  map (fun n =>
         status_of
           (responses
              (serve (createTodo
                        (Some (JObject [("item", JString (letters n))])))
                     (quiet the_oid) [])))
      [0; 1; 2; 100; 101]
  = [400; 400; 201; 201; 400].
Proof. vm_compute. reflexivity. Qed.

(* ================================================================== *)
(** ** Client errors touch nothing *)
(* ================================================================== *)

(** Every way a PUT /todos/:id can end. *)
Lemma updateTodo_outcome
  (id : string) (body : option json) (environment : nat -> event)
  (collection : list todo) :
  let o := serve (updateTodo id body) environment collection in
  let e := environment 0 in
  match ObjectIDFromHex id with
  | None =>
      o = mkOutcome false
            [mkResponse StatusBadRequest (H "error" "invalid id format")]
            collection 0
  | Some oid =>
  match ShouldBindJSON body zeroPayload with
  | None =>
      o = mkOutcome false
            [mkResponse StatusBadRequest (H "error" "invalid request body")]
            collection 0
  | Some payload =>
  match Validate_Struct payload with
  | Some err =>
      o = mkOutcome false
            [mkResponse StatusBadRequest
               (H "error" (parseValidationError err))]
            collection 0
  | None =>
  match fault e with
  | Some msg =>
      o = mkOutcome false
            [mkResponse StatusInternalServerError (H "error" msg)]
            (arrive e collection) 1
  | None =>
  match find_by_id oid (arrive e collection) with
  | None =>
      o = mkOutcome false
            [mkResponse StatusNotFound (H "error" "todo not found")]
            (arrive e collection) 1
  | Some t =>
      o = mkOutcome false
            [mkResponse StatusOK
               (one (apply_update (set_item (payloadItem payload)) t))]
            (update_first oid (set_item (payloadItem payload))
               (arrive e collection)) 1
  end end end end end.
Proof.
  cbv zeta.
  destruct (ObjectIDFromHex id) as [oid|] eqn:Hid; [|now run].
  destruct (ShouldBindJSON body zeroPayload) as [payload|] eqn:Hbind;
    [|now run].
  destruct (Validate_Struct payload) as [err|] eqn:Hvalid; [now run|].
  destruct (fault (environment 0)) as [msg|] eqn:Hfault; [now run|].
  destruct (find_by_id oid (arrive (environment 0) collection)) eqn:Hfind;
    now run.
Qed.

(** C10. When POST /todos or PUT /todos/:id is answered 400, the handler
    has issued no driver call and the collection is the one the request
    started from. *)
Theorem bad_request_issues_no_call
  (id : string) (body : option json) (environment : nat -> event)
  (collection : list todo) :
  forall r,
    In r [POST_todos body; PUT_todo id body] ->
    let o := serve (router r) environment collection in
    status_of (responses o) = StatusBadRequest ->
    issued o = 0 /\ store o = collection /\ panicked o = false.
Proof.
  intros r Hr. cbn [In] in Hr. destruct Hr as [<- | [<- | []]]; cbn [router].
  - pose proof (createTodo_outcome body environment collection) as Ho.
    cbv zeta in *.
    destruct (ShouldBindJSON body zeroPayload) as [payload|];
      [|now rewrite Ho].
    destruct (Validate_Struct payload); [now rewrite Ho|].
    destruct (fault (environment 0)); [now rewrite Ho|].
    destruct (existsb _ _); now rewrite Ho.
  - pose proof (updateTodo_outcome id body environment collection) as Ho.
    cbv zeta in *.
    destruct (ObjectIDFromHex id) as [oid|]; [|now rewrite Ho].
    destruct (ShouldBindJSON body zeroPayload) as [payload|];
      [|now rewrite Ho].
    destruct (Validate_Struct payload); [now rewrite Ho|].
    destruct (fault (environment 0)); [now rewrite Ho|].
    destruct (find_by_id oid _); now rewrite Ho.
Qed.

Lemma bad_request_issues_no_call_witness :
  let o := serve (router (PUT_todo the_id (Some (JString "buy milk"))))
                 (failing "connection reset") [milk] in
  status_of (responses o) = StatusBadRequest /\
  issued o = 0 /\ store o = [milk] /\ panicked o = false.
Proof.
  split; [reflexivity|].
  apply (bad_request_issues_no_call the_id (Some (JString "buy milk"))
           (failing "connection reset") [milk]);
    [cbn; tauto | reflexivity].
Defined.

(* ================================================================== *)
(** ** Where the handlers fall short *)
(* ================================================================== *)

(** C2. POST /todos whose insert fails: the handler writes the 500 reply
    and, lacking a [return], goes on to dereference the nil insert result
    and panics.  The reply stays the single 500 (no 201 is written), but
    the handler does not end with the report of the error. *)
Theorem create_insert_failure_panics
  (body : option json) (payload : todoPayload) (environment : nat -> event)
  (collection : list todo) (msg : string) :
  ShouldBindJSON body zeroPayload = Some payload ->
  Validate_Struct payload = None ->
  fault (environment 0) = Some msg ->
  fst (createTodo body (mkWorld environment collection 0 []))
  = Panic nil_dereference /\
  serve (createTodo body) environment collection
  = mkOutcome true
      [mkResponse StatusInternalServerError (H "error" msg)]
      (arrive (environment 0) collection) 1.
Proof.
  intros Hbind Hvalid Hfault. split; now run.
Qed.

Lemma create_insert_failure_panics_witness :
  let body := Some (JObject [("item", JString "buy milk")]) in
  fault (failing "connection reset" 0) = Some "connection reset" /\
  fst (createTodo body (mkWorld (failing "connection reset") [] 0 []))
  = Panic nil_dereference /\
  serve (createTodo body) (failing "connection reset") []
  = mkOutcome true
      [mkResponse StatusInternalServerError (H "error" "connection reset")]
      (arrive (failing "connection reset" 0) []) 1.
Proof.
  split; [reflexivity|].
  apply (create_insert_failure_panics
           (Some (JObject [("item", JString "buy milk")]))
           (mkPayload "buy milk" false) (failing "connection reset") []
           "connection reset");
    reflexivity.
Defined.

(** C1. PATCH /todos/:id on a document that the first call finds and that
    is gone when the update arrives: [UpdateOne] matches nothing and
    reports no error, the handler does not look at the match count, and
    the reply is 200 with the flipped copy of a document the collection no
    longer holds (not 404). *)
Theorem toggle_late_miss_is_answered_200
  (id : string) (oid : ObjectID) (environment : nat -> event)
  (collection : list todo) (t : todo) :
  ObjectIDFromHex id = Some oid ->
  fault (environment 0) = None ->
  fault (environment 1) = None ->
  find_by_id oid (arrive (environment 0) collection) = Some t ->
  find_by_id oid
    (arrive (environment 1) (arrive (environment 0) collection)) = None ->
  let o := serve (toggleTodoStatus id) environment collection in
  o = mkOutcome false [mkResponse StatusOK (one (flipped t))]
        (arrive (environment 1) (arrive (environment 0) collection)) 2 /\
  status_of (responses o) = 200 /\
  find_by_id oid (store o) = None.
Proof.
  intros Hid Hf0 Hf1 Hfound Hgone. cbv zeta.
  assert (Ho : serve (toggleTodoStatus id) environment collection
               = mkOutcome false [mkResponse StatusOK (one (flipped t))]
                   (arrive (environment 1)
                      (arrive (environment 0) collection)) 2).
  { unfold_handlers; simp. rewrite Hid. simp. rewrite Hf0, Hfound. simp.
    rewrite Hf1. simp. now rewrite (update_first_absent _ _ _ Hgone). }
  rewrite Ho. now repeat split.
Qed.

Lemma toggle_late_miss_is_answered_200_witness :
  let o := serve (toggleTodoStatus the_id) (deleted_meanwhile the_oid)
                 [milk] in
  find_by_id the_oid (arrive (deleted_meanwhile the_oid 0) [milk])
  = Some milk /\
  find_by_id the_oid
    (arrive (deleted_meanwhile the_oid 1)
       (arrive (deleted_meanwhile the_oid 0) [milk])) = None /\
  o = mkOutcome false [mkResponse StatusOK (one (flipped milk))]
        (arrive (deleted_meanwhile the_oid 1)
           (arrive (deleted_meanwhile the_oid 0) [milk])) 2 /\
  status_of (responses o) = 200 /\
  find_by_id the_oid (store o) = None.
Proof.
  split; [reflexivity|]. split; [reflexivity|].
  apply (toggle_late_miss_is_answered_200 the_id the_oid
           (deleted_meanwhile the_oid) [milk] milk);
    reflexivity.
Defined.

Example toggle_late_miss_run :
  serve (toggleTodoStatus the_id) (deleted_meanwhile the_oid) [milk]
  = mkOutcome false
      [mkResponse StatusOK (one (mkTodo the_oid "buy milk" true))] [] 2.
Proof. reflexivity. Qed.

(** The sibling path: a PUT that finds the document gone is answered 404. *)
Example update_miss_run :
  serve (updateTodo the_id (Some (JObject [("item", JString "buy eggs")])))
        (fun _ => mkEvent [w_delete the_oid] None the_oid (fun l => l)) [milk]
  = mkOutcome false
      [mkResponse StatusNotFound (H "error" "todo not found")] [] 1.
Proof. reflexivity. Qed.

(* ================================================================== *)
(** ** The older revision *)
(* ================================================================== *)

(** The older [createTodo] only refuses the empty [item]: one character is
    accepted, whatever the driver does with [id] members. *)
Lemma older_createTodo_accepts_one_character
  (unmarshal_id : json -> ObjectID -> option ObjectID) :
  serve (Part000.createTodo unmarshal_id
           (Some (JObject [("item", JString "a")])))
        (quiet the_oid) []
  = mkOutcome false
      [mkResponse StatusCreated (one (mkTodo the_oid "a" false))]
      [mkTodo the_oid "a" false] 1.
Proof. reflexivity. Qed.

(** It shares the missing [return] after a failed insert. *)
Lemma older_createTodo_insert_failure_panics
  (unmarshal_id : json -> ObjectID -> option ObjectID) :
  serve (Part000.createTodo unmarshal_id
           (Some (JObject [("item", JString "buy milk")])))
        (failing "connection reset") []
  = mkOutcome true
      [mkResponse StatusInternalServerError (H "error" "connection reset")]
      [] 1.
Proof. reflexivity. Qed.

(* ================================================================== *)
(** ** The invariant of the collection *)
(* ================================================================== *)

(** Whatever the request and the environment, a collection with pairwise
    distinct identifiers is left with pairwise distinct identifiers. *)
Lemma serve_keeps_unique_ids
  (r : request) (environment : nat -> event) (collection : list todo) :
  unique_ids collection ->
  unique_ids (store (serve (router r) environment collection)).
Proof.
  intros Hu.
  pose proof (unique_ids_arrive (environment 0) collection Hu) as H0.
  destruct r as [ | body | id | id | id body | id ].
  - unfold_handlers; simp.
    destruct (fault (environment 0)); simp; [assumption|].
    now rewrite each_appends.
  - pose proof (createTodo_outcome body environment collection) as Ho.
    cbv zeta in Ho. cbn [router].
    destruct (ShouldBindJSON body zeroPayload) as [payload|];
      [|now rewrite Ho].
    destruct (Validate_Struct payload); [now rewrite Ho|].
    destruct (fault (environment 0)); [now rewrite Ho|].
    destruct (existsb _ _) eqn:Hdup; rewrite Ho; simp; [assumption|].
    apply (unique_ids_insert
             (mkTodo (fresh (environment 0)) (payloadItem payload)
                     (payloadCompleted payload))
             (arrive (environment 0) collection)); [exact H0|].
    unfold insert_doc. cbn [ID]. now rewrite Hdup.
  - unfold_handlers; simp.
    destruct (ObjectIDFromHex id); simp; [|assumption].
    destruct (fault (environment 0)); simp; [assumption|].
    destruct (find_by_id _ _); simp; assumption.
  - unfold_handlers; simp.
    destruct (ObjectIDFromHex id) as [oid|]; simp; [|assumption].
    destruct (fault (environment 0)); simp; [assumption|].
    destruct (find_by_id _ _) as [t|]; simp; [|assumption].
    pose proof (unique_ids_arrive (environment 1) _ H0) as H1.
    destruct (fault (environment 1)); simp; [assumption|].
    unfold unique_ids. now rewrite map_ID_update_first.
  - pose proof (updateTodo_outcome id body environment collection) as Ho.
    cbv zeta in Ho. cbn [router].
    destruct (ObjectIDFromHex id) as [oid|]; [|now rewrite Ho].
    destruct (ShouldBindJSON body zeroPayload) as [payload|];
      [|now rewrite Ho].
    destruct (Validate_Struct payload); [now rewrite Ho|].
    destruct (fault (environment 0)); [now rewrite Ho|].
    destruct (find_by_id oid _); rewrite Ho; simp; [|assumption].
    unfold unique_ids. now rewrite map_ID_update_first.
  - unfold_handlers; simp.
    destruct (ObjectIDFromHex id) as [oid|]; simp; [|assumption].
    destruct (fault (environment 0)); simp; [assumption|].
    destruct (find_by_id _ _); simp; [|assumption].
    now apply unique_ids_delete_first.
Qed.

Lemma serve_all_keeps_unique_ids
  (rs : list (request * (nat -> event))) (collection : list todo) :
  unique_ids collection -> unique_ids (snd (serve_all rs collection)).
Proof.
  revert collection.
  induction rs as [|[r environment] rest IH]; intros collection Hu;
    [exact Hu|].
  cbn [serve_all].
  specialize (IH _ (serve_keeps_unique_ids r environment collection Hu)).
  now destruct (serve_all rest _).
Qed.

(* ================================================================== *)
(** ** Every way the other handlers can end *)
(* ================================================================== *)

Lemma getTodos_outcome (environment : nat -> event) (collection : list todo) :
  let o := serve getTodos environment collection in
  let e := environment 0 in
  match fault e with
  | Some msg =>
      o = mkOutcome false
            [mkResponse StatusInternalServerError (H "error" msg)]
            (arrive e collection) 1
  | None =>
      o = mkOutcome false
            [mkResponse StatusOK
               (many (Some (order e (arrive e collection))))]
            (arrive e collection) 1
  end.
Proof.
  cbv zeta. destruct (fault (environment 0)) as [msg|] eqn:Hfault.
  - now run.
  - unfold_handlers; simp. rewrite Hfault; simp. now rewrite each_appends.
Qed.

Lemma getTodo_outcome
  (id : string) (environment : nat -> event) (collection : list todo) :
  let o := serve (getTodo id) environment collection in
  let e := environment 0 in
  match ObjectIDFromHex id with
  | None =>
      o = mkOutcome false
            [mkResponse StatusBadRequest (H "error" "invalid id format")]
            collection 0
  | Some oid =>
  match fault e with
  | Some msg =>
      o = mkOutcome false
            [mkResponse StatusInternalServerError (H "error" msg)]
            (arrive e collection) 1
  | None =>
  match find_by_id oid (arrive e collection) with
  | None =>
      o = mkOutcome false
            [mkResponse StatusNotFound
               (H "error" "mongo: no documents in result")]
            (arrive e collection) 1
  | Some t =>
      o = mkOutcome false [mkResponse StatusOK (one t)]
            (arrive e collection) 1
  end end end.
Proof.
  cbv zeta.
  destruct (ObjectIDFromHex id) as [oid|] eqn:Hid; [|now run].
  destruct (fault (environment 0)) as [msg|] eqn:Hfault; [now run|].
  destruct (find_by_id oid (arrive (environment 0) collection)) eqn:Hfind;
    now run.
Qed.

Lemma deleteTodo_outcome
  (id : string) (environment : nat -> event) (collection : list todo) :
  let o := serve (deleteTodo id) environment collection in
  let e := environment 0 in
  match ObjectIDFromHex id with
  | None =>
      o = mkOutcome false
            [mkResponse StatusBadRequest (H "error" "invalid id format")]
            collection 0
  | Some oid =>
  match fault e with
  | Some msg =>
      o = mkOutcome false
            [mkResponse StatusInternalServerError (H "error" msg)]
            (arrive e collection) 1
  | None =>
  match find_by_id oid (arrive e collection) with
  | None =>
      o = mkOutcome false
            [mkResponse StatusNotFound (H "error" "document not found")]
            (arrive e collection) 1
  | Some t =>
      o = mkOutcome false [mkResponse StatusOK (one t)]
            (delete_first oid (arrive e collection)) 1
  end end end.
Proof.
  cbv zeta.
  destruct (ObjectIDFromHex id) as [oid|] eqn:Hid; [|now run].
  destruct (fault (environment 0)) as [msg|] eqn:Hfault; [now run|].
  destruct (find_by_id oid (arrive (environment 0) collection)) eqn:Hfind;
    now run.
Qed.

Lemma toggleTodoStatus_outcome
  (id : string) (environment : nat -> event) (collection : list todo) :
  let o := serve (toggleTodoStatus id) environment collection in
  let e := environment 0 in
  let e' := environment 1 in
  match ObjectIDFromHex id with
  | None =>
      o = mkOutcome false
            [mkResponse StatusBadRequest (H "error" "invalid id format")]
            collection 0
  | Some oid =>
  match fault e with
  | Some msg =>
      o = mkOutcome false
            [mkResponse StatusInternalServerError (H "error" msg)]
            (arrive e collection) 1
  | None =>
  match find_by_id oid (arrive e collection) with
  | None =>
      o = mkOutcome false
            [mkResponse StatusNotFound (H "error" "document not found")]
            (arrive e collection) 1
  | Some t =>
  match fault e' with
  | Some msg =>
      o = mkOutcome false
            [mkResponse StatusInternalServerError (H "error" msg)]
            (arrive e' (arrive e collection)) 2
  | None =>
      o = mkOutcome false [mkResponse StatusOK (one (flipped t))]
            (update_first oid (set_completed (negb (Completed t)))
               (arrive e' (arrive e collection))) 2
  end end end end.
Proof.
  cbv zeta.
  destruct (ObjectIDFromHex id) as [oid|] eqn:Hid; [|now run].
  destruct (fault (environment 0)) as [msg|] eqn:Hfault; [now run|].
  destruct (find_by_id oid (arrive (environment 0) collection)) eqn:Hfind;
    [|now run].
  destruct (fault (environment 1)) as [msg|] eqn:Hfault';
    unfold_handlers; simp; rewrite Hid; simp; rewrite Hfault, Hfind; simp;
    now rewrite Hfault'.
Qed.

(* ================================================================== *)
(** ** What every request gets *)
(* ================================================================== *)

(** X1. Every request is answered with exactly one write on the context, and
    its status is one the route can give: 200 or 500 for the list, 201, 400
    or 500 for a create, 200, 400, 404 or 500 for the routes with an
    identifier. *)
Theorem one_reply_with_a_status_of_the_route
  (r : request) (environment : nat -> event) (collection : list todo) :
  let o := serve (router r) environment collection in
  List.length (responses o) = 1 /\
  In (status_of (responses o)) (allowed r).
Proof.
  cbv zeta. destruct r as [ | body | id | id | id body | id ]; cbn [router].
  - pose proof (getTodos_outcome environment collection) as Ho.
    ways Ho; cbn; tauto.
  - pose proof (createTodo_outcome body environment collection) as Ho.
    ways Ho; cbn; tauto.
  - pose proof (getTodo_outcome id environment collection) as Ho.
    ways Ho; cbn; tauto.
  - pose proof (toggleTodoStatus_outcome id environment collection) as Ho.
    ways Ho; cbn; tauto.
  - pose proof (updateTodo_outcome id body environment collection) as Ho.
    ways Ho; cbn; tauto.
  - pose proof (deleteTodo_outcome id environment collection) as Ho.
    ways Ho; cbn; tauto.
Qed.

(** X2. A handler calls the driver at most once, the toggle at most twice
    (read, then write); it calls it not at all exactly when it answers
    400. *)
Theorem driver_calls_per_request
  (r : request) (environment : nat -> event) (collection : list todo) :
  let o := serve (router r) environment collection in
  issued o <= budget r /\
  (issued o = 0 <-> status_of (responses o) = StatusBadRequest).
Proof.
  cbv zeta. destruct r as [ | body | id | id | id body | id ]; cbn [router].
  - pose proof (getTodos_outcome environment collection) as Ho.
    ways Ho; cbn; intuition (lia || discriminate).
  - pose proof (createTodo_outcome body environment collection) as Ho.
    ways Ho; cbn; intuition (lia || discriminate).
  - pose proof (getTodo_outcome id environment collection) as Ho.
    ways Ho; cbn; intuition (lia || discriminate).
  - pose proof (toggleTodoStatus_outcome id environment collection) as Ho.
    ways Ho; cbn; intuition (lia || discriminate).
  - pose proof (updateTodo_outcome id body environment collection) as Ho.
    ways Ho; cbn; intuition (lia || discriminate).
  - pose proof (deleteTodo_outcome id environment collection) as Ho.
    ways Ho; cbn; intuition (lia || discriminate).
Qed.

(** X3. The only panic of the service: a create whose insert failed, after
    its 500 is written.  No other route panics, and a create that is not
    answered 500 does not. *)
Theorem only_a_failed_create_panics
  (r : request) (environment : nat -> event) (collection : list todo) :
  let o := serve (router r) environment collection in
  panicked o = true <->
  (exists body, r = POST_todos body) /\
  status_of (responses o) = StatusInternalServerError.
Proof.
  cbv zeta. destruct r as [ | body | id | id | id body | id ]; cbn [router].
  - pose proof (getTodos_outcome environment collection) as Ho.
    ways Ho; split; try discriminate; intros [[b Hb] _]; discriminate.
  - pose proof (createTodo_outcome body environment collection) as Ho.
    ways Ho;
      (split;
       [ first [discriminate
               | intros _; split; [now exists body | reflexivity]]
       | intros [_ Hs]; first [reflexivity | cbv in Hs; discriminate Hs] ]).
  - pose proof (getTodo_outcome id environment collection) as Ho.
    ways Ho; split; try discriminate; intros [[b Hb] _]; discriminate.
  - pose proof (toggleTodoStatus_outcome id environment collection) as Ho.
    ways Ho; split; try discriminate; intros [[b Hb] _]; discriminate.
  - pose proof (updateTodo_outcome id body environment collection) as Ho.
    ways Ho; split; try discriminate; intros [[b Hb] _]; discriminate.
  - pose proof (deleteTodo_outcome id environment collection) as Ho.
    ways Ho; split; try discriminate; intros [[b Hb] _]; discriminate.
Qed.

(** X4. The two GET routes never write: whatever the reply, the collection
    after the request is the one its call found, or, when no call was
    made, the one it started from. *)
Theorem reads_never_write
  (id : string) (environment : nat -> event) (collection : list todo) :
  forall r,
    In r [GET_todos; GET_todo id] ->
    let o := serve (router r) environment collection in
    store o = (if issued o =? 0 then collection
               else arrive (environment 0) collection).
Proof.
  intros r Hr. cbn [In] in Hr. destruct Hr as [<- | [<- | []]]; cbn [router].
  - pose proof (getTodos_outcome environment collection) as Ho.
    now ways Ho.
  - pose proof (getTodo_outcome id environment collection) as Ho.
    now ways Ho.
Qed.

(** X5. A storage failure on the first call of a request whose identifier
    parses and whose payload binds and validates is reported as it is: the
    one reply is 500 with the driver's message verbatim, after that one
    call. *)
Theorem storage_failure_is_500
  (id : string) (oid : ObjectID) (body : option json) (payload : todoPayload)
  (environment : nat -> event) (collection : list todo) (msg : string) :
  ObjectIDFromHex id = Some oid ->
  ShouldBindJSON body zeroPayload = Some payload ->
  Validate_Struct payload = None ->
  fault (environment 0) = Some msg ->
  forall r,
    In r [GET_todos; POST_todos body; GET_todo id; PATCH_todo id;
          PUT_todo id body; DELETE_todo id] ->
    let o := serve (router r) environment collection in
    responses o
    = [mkResponse StatusInternalServerError (H "error" msg)] /\
    issued o = 1.
Proof.
  intros Hid Hbind Hvalid Hfault r Hr. cbn [In] in Hr.
  repeat (destruct Hr as [<- | Hr]); try contradiction; now run.
Qed.

Lemma storage_failure_is_500_witness :
  let o := serve (router (DELETE_todo the_id)) (failing "connection reset")
                 [milk] in
  fault (failing "connection reset" 0) = Some "connection reset" /\
  responses o
  = [mkResponse StatusInternalServerError (H "error" "connection reset")] /\
  issued o = 1.
Proof.
  split; [reflexivity|].
  apply (storage_failure_is_500 the_id the_oid
           (Some (JObject [("item", JString "buy eggs")]))
           (mkPayload "buy eggs" false) (failing "connection reset") [milk]
           "connection reset");
    try reflexivity.
  cbn; tauto.
Defined.

(** X6. A toggle whose read succeeds and whose write the storage layer fails
    is answered 500 with the driver's message as its one reply, after the
    two calls, without a panic: no 200 with a flipped copy is written. *)
Theorem toggle_write_failure_is_500
  (id : string) (oid : ObjectID) (environment : nat -> event)
  (collection : list todo) (t : todo) (msg : string) :
  ObjectIDFromHex id = Some oid ->
  fault (environment 0) = None ->
  find_by_id oid (arrive (environment 0) collection) = Some t ->
  fault (environment 1) = Some msg ->
  let o := serve (toggleTodoStatus id) environment collection in
  panicked o = false /\
  responses o = [mkResponse StatusInternalServerError (H "error" msg)] /\
  issued o = 2.
Proof.
  intros Hid Hf0 Hfind Hf1. cbv zeta.
  pose proof (toggleTodoStatus_outcome id environment collection) as Ho.
  cbv zeta in Ho. rewrite Hid, Hf0, Hfind, Hf1 in Ho. now rewrite Ho.
Qed.

Lemma toggle_write_failure_is_500_witness :
  let o := serve (toggleTodoStatus the_id) (failing_second "timeout")
                 [bread; milk] in
  find_by_id the_oid (arrive (failing_second "timeout" 0) [bread; milk])
  = Some milk /\
  panicked o = false /\
  responses o
  = [mkResponse StatusInternalServerError (H "error" "timeout")] /\
  issued o = 2.
Proof.
  split; [reflexivity|].
  apply (toggle_write_failure_is_500 the_id the_oid
           (failing_second "timeout") [bread; milk] milk "timeout");
    reflexivity.
Defined.

(* ================================================================== *)
(** ** Identifiers as text *)
(* ================================================================== *)

Lemma below_forall (P : N -> bool) (k : nat) :
  forallb P (map N.of_nat (seq 0 k)) = true ->
  forall n, (n < N.of_nat k)%N -> P n = true.
Proof.
  rewrite forallb_forall. intros HP n Hn. apply HP, in_map_iff.
  exists (N.to_nat n). split; [apply N2Nat.id | apply in_seq; lia].
Qed.

Lemma string_pairs_ind (P : string -> Prop) :
  P EmptyString ->
  (forall a, P (String a EmptyString)) ->
  (forall a b r, P r -> P (String a (String b r))) ->
  forall s, P s.
Proof.
  intros H0 H1 H2. fix IH 1.
  intros [|a [|b r]]; [exact H0 | apply H1 | apply H2, IH].
Qed.

Lemma fromHexChar_hexdigit (n : N) :
  (n < 16)%N -> fromHexChar (hexdigit n) = Some n.
Proof.
  intros Hn.
  apply (below_forall
           (fun n => match fromHexChar (hexdigit n) with
                     | Some m => (m =? n)%N
                     | None => false
                     end) 16 eq_refl) in Hn.
  destruct (fromHexChar (hexdigit n)); [|discriminate].
  now apply N.eqb_eq in Hn; subst.
Qed.

Lemma fromHexChar_small (c : ascii) (n : N) :
  fromHexChar c = Some n -> (n < 16)%N.
Proof.
  unfold fromHexChar.
  repeat match goal with
         | |- context [if ?b then _ else _] =>
             let Hb := fresh "Hb" in
             destruct b eqn:Hb;
             [apply andb_prop in Hb; destruct Hb as [?%N.leb_le ?%N.leb_le]|]
         end; intros [= <-] || discriminate; lia.
Qed.

Lemma hexdigit_fromHexChar (c : ascii) (n : N) :
  fromHexChar c = Some n -> hexdigit n = lower c.
Proof.
  destruct c as [[] [] [] [] [] [] [] []]; cbv;
    (discriminate || (intros [= <-]; reflexivity)).
Qed.

Lemma fromHexChar_lower (c : ascii) :
  fromHexChar (lower c) = fromHexChar c.
Proof. destruct c as [[] [] [] [] [] [] [] []]; reflexivity. Qed.

Lemma byte_digits (p q : N) :
  (p < 16)%N -> (q < 16)%N ->
  ((p * 16 + q) / 16 = p /\ (p * 16 + q) mod 16 = q /\ p * 16 + q < 256)%N.
Proof.
  intros Hp Hq. repeat split.
  - rewrite N.div_add_l by lia. rewrite N.div_small by lia. lia.
  - rewrite N.add_comm, N.Div0.mod_add. now apply N.mod_small.
  - lia.
Qed.

Lemma hex_Decode_Hex (l : list N) :
  Forall (fun b => (b < 256)%N) l -> hex_Decode (Hex l) = Some l.
Proof.
  induction 1 as [|b l Hb Hl IH]; [reflexivity|].
  cbn [Hex hex_Decode].
  rewrite !fromHexChar_hexdigit, IH.
  - f_equal. f_equal. rewrite N.mul_comm. symmetry. apply N.div_mod'.
  - apply N.mod_lt. lia.
  - apply N.Div0.div_lt_upper_bound. lia.
Qed.

Lemma length_Hex (l : list N) : String.length (Hex l) = 2 * List.length l.
Proof. induction l as [|b l IH]; cbn in *; [reflexivity | lia]. Qed.

Lemma hex_Decode_spec (s : string) :
  forall l,
    hex_Decode s = Some l ->
    String.length s = 2 * List.length l /\
    Forall (fun b => (b < 256)%N) l /\
    Hex l = foldName s.
Proof.
  induction s as [| a | a b r IH] using string_pairs_ind; intros l.
  - intros [= <-]. repeat split. constructor.
  - discriminate.
  - cbn [hex_Decode].
    destruct (fromHexChar a) as [p|] eqn:Ha; [|discriminate].
    destruct (fromHexChar b) as [q|] eqn:Hb; [|discriminate].
    destruct (hex_Decode r) as [l'|]; [|discriminate].
    intros [= <-]. destruct (IH l' eq_refl) as (Hlen & Hall & Hhex).
    destruct (byte_digits p q (fromHexChar_small _ _ Ha)
                (fromHexChar_small _ _ Hb)) as (Hd & Hm & Hlt).
    repeat split.
    + cbn. lia.
    + now constructor.
    + cbn [Hex foldName]. rewrite Hd, Hm, Hhex.
      now rewrite (hexdigit_fromHexChar _ _ Ha), (hexdigit_fromHexChar _ _ Hb).
Qed.

Lemma hex_Decode_foldName (s : string) :
  hex_Decode (foldName s) = hex_Decode s.
Proof.
  induction s as [| a | a b r IH] using string_pairs_ind;
    [reflexivity | reflexivity |].
  cbn [foldName hex_Decode]. now rewrite !fromHexChar_lower, IH.
Qed.

Lemma length_foldName (s : string) :
  String.length (foldName s) = String.length s.
Proof. induction s as [|c s IH]; cbn; [reflexivity | now rewrite IH]. Qed.

(** The text of an identifier of twelve bytes parses back to it. *)
Lemma ObjectIDFromHex_Hex (id : ObjectID) :
  wellformed id -> ObjectIDFromHex (Hex id) = Some id.
Proof.
  intros [Hlen Hall]. unfold ObjectIDFromHex.
  rewrite length_Hex, Hlen. cbn [negb Nat.eqb Nat.mul Nat.add].
  now apply hex_Decode_Hex.
Qed.

(** What parses is twelve bytes, and their text is the input in lower
    case. *)
Lemma ObjectIDFromHex_spec (s : string) (id : ObjectID) :
  ObjectIDFromHex s = Some id -> wellformed id /\ Hex id = foldName s.
Proof.
  unfold ObjectIDFromHex.
  destruct (String.length s =? 24) eqn:Hlen; [|discriminate].
  cbn [negb]. intros Hdec. apply Nat.eqb_eq in Hlen.
  destruct (hex_Decode_spec s id Hdec) as (Hl & Hall & Hhex).
  repeat split; [lia | assumption | assumption].
Qed.

Lemma ObjectIDFromHex_foldName (s : string) :
  ObjectIDFromHex (foldName s) = ObjectIDFromHex s.
Proof.
  unfold ObjectIDFromHex. now rewrite length_foldName, hex_Decode_foldName.
Qed.

(** X7. The [:id] of a route is read without regard to the case of its hex
    digits: two spellings that differ in letter case only get the same
    outcome from the four routes with an identifier. *)
Theorem id_is_case_insensitive
  (id id' : string) (body : option json) (environment : nat -> event)
  (collection : list todo) :
  foldName id = foldName id' ->
  serve (getTodo id) environment collection
  = serve (getTodo id') environment collection /\
  serve (toggleTodoStatus id) environment collection
  = serve (toggleTodoStatus id') environment collection /\
  serve (updateTodo id body) environment collection
  = serve (updateTodo id' body) environment collection /\
  serve (deleteTodo id) environment collection
  = serve (deleteTodo id') environment collection.
Proof.
  intros Hfold.
  assert (Hid : ObjectIDFromHex id = ObjectIDFromHex id')
    by now rewrite <- (ObjectIDFromHex_foldName id), Hfold,
                   ObjectIDFromHex_foldName.
  unfold getTodo, toggleTodoStatus, updateTodo, deleteTodo.
  now rewrite Hid.
Qed.

Lemma id_is_case_insensitive_witness :
  let id := "65A1B2C3D4E5F60718293A4B" in
  foldName id = foldName the_id /\
  serve (getTodo id) (quiet the_oid) [milk]
  = serve (getTodo the_id) (quiet the_oid) [milk] /\
  serve (toggleTodoStatus id) (quiet the_oid) [milk]
  = serve (toggleTodoStatus the_id) (quiet the_oid) [milk] /\
  serve (updateTodo id None) (quiet the_oid) [milk]
  = serve (updateTodo the_id None) (quiet the_oid) [milk] /\
  serve (deleteTodo id) (quiet the_oid) [milk]
  = serve (deleteTodo the_id) (quiet the_oid) [milk].
Proof.
  split; [reflexivity|].
  apply (id_is_case_insensitive "65A1B2C3D4E5F60718293A4B" the_id None
           (quiet the_oid) [milk]).
  reflexivity.
Defined.

(** X8. A record created with 201 is found again under the identifier of the
    reply: a GET on the text of that identifier, right after, is answered
    200 with the same record. *)
Theorem create_then_get
  (body : option json) (payload : todoPayload)
  (first second : nat -> event) (collection : list todo) :
  ShouldBindJSON body zeroPayload = Some payload ->
  Validate_Struct payload = None ->
  calm (first 0) -> calm (second 0) ->
  wellformed (fresh (first 0)) ->
  find_by_id (fresh (first 0)) collection = None ->
  let t := mkTodo (fresh (first 0)) (payloadItem payload)
                  (payloadCompleted payload) in
  let o1 := serve (createTodo body) first collection in
  let o2 := serve (getTodo (Hex (ID t))) second (store o1) in
  responses o1 = [mkResponse StatusCreated (one t)] /\
  store o1 = collection ++ [t] /\
  responses o2 = [mkResponse StatusOK (one t)] /\
  store o2 = store o1.
Proof.
  intros Hbind Hvalid [Hb1 Hf1] [Hb2 Hf2] Hwf Hfree. cbv zeta.
  pose proof (createTodo_outcome body first collection) as H1.
  cbv zeta in H1. unfold arrive in H1.
  rewrite Hbind, Hvalid, Hf1, Hb1 in H1. cbn [fold_left] in H1.
  rewrite (proj2 (existsb_has_id _ _) Hfree) in H1. rewrite H1. simp.
  pose proof (getTodo_outcome
                (Hex (fresh (first 0))) second
                (collection ++
                 [mkTodo (fresh (first 0)) (payloadItem payload)
                         (payloadCompleted payload)])) as H2.
  cbv zeta in H2. unfold arrive in H2.
  rewrite (ObjectIDFromHex_Hex _ Hwf), Hf2, Hb2 in H2. cbn [fold_left] in H2.
  rewrite (find_here _ _ _ _ Hfree) in H2
    by (unfold has_id; apply oid_eqb_refl).
  now rewrite H2.
Qed.

Lemma create_then_get_witness :
  let body := Some (JObject [("item", JString "buy milk")]) in
  let o1 := serve (createTodo body) (quiet the_oid) [bread] in
  let o2 := serve (getTodo (Hex (ID milk))) (quiet the_oid) (store o1) in
  wellformed (fresh (quiet the_oid 0)) /\
  responses o1 = [mkResponse StatusCreated (one milk)] /\
  store o1 = [bread] ++ [milk] /\
  responses o2 = [mkResponse StatusOK (one milk)] /\
  store o2 = store o1.
Proof.
  assert (Hwf : wellformed (fresh (quiet the_oid 0))).
  { split; [reflexivity|]. cbn. repeat constructor. }
  split; [exact Hwf|].
  apply (create_then_get (Some (JObject [("item", JString "buy milk")]))
           (mkPayload "buy milk" false) (quiet the_oid) (quiet the_oid)
           [bread]);
    try reflexivity; try (split; reflexivity).
  exact Hwf.
Defined.

(* ================================================================== *)
(** ** The validator, in full *)
(* ================================================================== *)

Lemma append_assoc (a b c : string) :
  ((a ++ b) ++ c = a ++ (b ++ c))%string.
Proof. induction a as [|x a IH]; cbn; [reflexivity | now rewrite IH]. Qed.

Lemma append_empty_r (a : string) : (a ++ EmptyString)%string = a.
Proof. induction a as [|x a IH]; cbn; [reflexivity | now rewrite IH]. Qed.

Lemma fold_lines (l : list FieldError) (acc : string) :
  fold_left (fun result fieldError =>
               (result ++ validation_line fieldError)%string) l acc
  = (acc ++ String.concat EmptyString (map validation_line l))%string.
Proof.
  revert acc. induction l as [|fe l IH]; intros acc; cbn [fold_left map].
  - cbn. now rewrite append_empty_r.
  - rewrite IH, append_assoc. f_equal.
    destruct l as [|fe' l]; cbn; [now rewrite append_empty_r | reflexivity].
Qed.

Lemma parseValidationError_concat (l : list FieldError) :
  parseValidationError (ValidationErrors l)
  = String.concat EmptyString (map validation_line l).
Proof.
  unfold parseValidationError.
  change (fun result fieldError =>
            (result ++ "Field validation for '" ++ Field fieldError
               ++ "' failed: '" ++ ActualTag fieldError
               ++ "' (condition: " ++ Param fieldError ++ ")" ++ newline)
            %string)
    with (fun result fieldError =>
            (result ++ validation_line fieldError)%string).
  now rewrite fold_lines.
Qed.

(** X9. [parseValidationError] writes one line per field error, in order, and
    nothing else: the message of a list of errors is the lines put end to
    end, so the message of two lists appended is the two messages
    appended. *)
Theorem parseValidationError_lines (a b : list FieldError) :
  parseValidationError (ValidationErrors a)
  = String.concat EmptyString (map validation_line a) /\
  parseValidationError (ValidationErrors (a ++ b))
  = (parseValidationError (ValidationErrors a)
       ++ parseValidationError (ValidationErrors b))%string.
Proof.
  split; [apply parseValidationError_concat|].
  unfold parseValidationError.
  change (fun result fieldError =>
            (result ++ "Field validation for '" ++ Field fieldError
               ++ "' failed: '" ++ ActualTag fieldError
               ++ "' (condition: " ++ Param fieldError ++ ")" ++ newline)
            %string)
    with (fun result fieldError =>
            (result ++ validation_line fieldError)%string).
  rewrite fold_left_app, !fold_lines. reflexivity.
Qed.

Lemma rune_count_zero (s : string) :
  utf8.RuneCountInString s = 0 -> s = EmptyString.
Proof. destruct s; [reflexivity | discriminate]. Qed.

(** The payload passes the validator exactly when its item has 2 to 100
    runes; otherwise the one error is on the first tag that fails:
    [required] for the empty item, [min] for one rune, [max] above 100. *)
Lemma Validate_Struct_iff (p : todoPayload) :
  let n := utf8.RuneCountInString (payloadItem p) in
  (Validate_Struct p = None <-> 2 <= n <= 100) /\
  (n = 0 ->
   Validate_Struct p
   = Some (ValidationErrors
             [mkFieldError "Item" (tag_name required) (tag_param required)])) /\
  (n = 1 ->
   Validate_Struct p
   = Some (ValidationErrors
             [mkFieldError "Item" (tag_name (min 2)) (tag_param (min 2))])) /\
  (100 < n ->
   Validate_Struct p
   = Some (ValidationErrors
             [mkFieldError "Item" (tag_name (max 100))
                           (tag_param (max 100))])).
Proof.
  cbv zeta.
  destruct (Validate_Struct_by_length p) as (Hok & Hmin & Hmax).
  assert (Hzero : utf8.RuneCountInString (payloadItem p) = 0 ->
                  Validate_Struct p
                  = Some (ValidationErrors
                            [mkFieldError "Item" "required" EmptyString])).
  { intros Hn. apply rune_count_zero in Hn. unfold Validate_Struct.
    now rewrite Hn. }
  split; [split; [intros Hnone | exact Hok] | repeat split; assumption].
  destruct (Nat.le_gt_cases (utf8.RuneCountInString (payloadItem p)) 100)
    as [Hle | Hgt]; [|now rewrite Hmax in Hnone].
  destruct (utf8.RuneCountInString (payloadItem p)) as [|[|n]] eqn:Hn.
  - now rewrite Hzero in Hnone.
  - now rewrite Hmin in Hnone.
  - lia.
Qed.

(** X10. POST /todos and PUT /todos/:id with a body that binds: the reply is
    400 exactly when the item has fewer than 2 or more than 100 runes, and
    then it is the validator's line for the failed tag: [required] for the
    empty item, [min] (condition 2) for one rune, [max] (condition 100)
    above 100. *)
Theorem item_length_decides_400
  (id : string) (oid : ObjectID) (body : option json) (payload : todoPayload)
  (environment : nat -> event) (collection : list todo) :
  ObjectIDFromHex id = Some oid ->
  ShouldBindJSON body zeroPayload = Some payload ->
  let n := utf8.RuneCountInString (payloadItem payload) in
  forall r,
    In r [POST_todos body; PUT_todo id body] ->
    let o := serve (router r) environment collection in
    (status_of (responses o) = StatusBadRequest <-> ~ 2 <= n <= 100) /\
    (n = 0 -> responses o = [refused required]) /\
    (n = 1 -> responses o = [refused (min 2)]) /\
    (100 < n -> responses o = [refused (max 100)]).
Proof.
  intros Hid Hbind n r Hr.
  destruct (Validate_Struct_iff payload)
    as ((Hnone & Hin) & Hzero & Hone & Hmany).
  fold n in Hnone, Hin, Hzero, Hone, Hmany.
  assert (Hmsg : forall t,
             parseValidationError
               (ValidationErrors
                  [mkFieldError "Item" (tag_name t) (tag_param t)])
             = validation_line
                 (mkFieldError "Item" (tag_name t) (tag_param t))).
  { intros t. rewrite parseValidationError_concat. cbn. reflexivity. }
  assert (Hcases : n = 0 \/ n = 1 \/ 100 < n \/ 2 <= n <= 100) by lia.
  cbn [In] in Hr. destruct Hr as [<- | [<- | []]]; cbn [router]; cbv zeta.
  - pose proof (createTodo_outcome body environment collection) as Ho.
    cbv zeta in Ho. rewrite Hbind in Ho.
    destruct Hcases as [Hn | [Hn | [Hn | Hn]]].
    + rewrite (Hzero Hn), Hmsg in Ho. rewrite Ho. unfold refused.
      repeat split; intros; first [reflexivity | lia].
    + rewrite (Hone Hn), Hmsg in Ho. rewrite Ho. unfold refused.
      repeat split; intros; first [reflexivity | lia].
    + rewrite (Hmany Hn), Hmsg in Ho. rewrite Ho. unfold refused.
      repeat split; intros; first [reflexivity | lia].
    + rewrite (Hin Hn) in Ho.
      destruct (fault (environment 0)); [|destruct (existsb _ _)];
        rewrite Ho; cbn;
        repeat split; intros; first [lia | discriminate | tauto].
  - pose proof (updateTodo_outcome id body environment collection) as Ho.
    cbv zeta in Ho. rewrite Hid, Hbind in Ho.
    destruct Hcases as [Hn | [Hn | [Hn | Hn]]].
    + rewrite (Hzero Hn), Hmsg in Ho. rewrite Ho. unfold refused.
      repeat split; intros; first [reflexivity | lia].
    + rewrite (Hone Hn), Hmsg in Ho. rewrite Ho. unfold refused.
      repeat split; intros; first [reflexivity | lia].
    + rewrite (Hmany Hn), Hmsg in Ho. rewrite Ho. unfold refused.
      repeat split; intros; first [reflexivity | lia].
    + rewrite (Hin Hn) in Ho.
      destruct (fault (environment 0)); [|destruct (find_by_id _ _)];
        rewrite Ho; cbn;
        repeat split; intros; first [lia | discriminate | tauto].
Qed.

Lemma item_length_decides_400_witness :
  let body := Some (JObject [("completed", JBool true)]) in
  let n := utf8.RuneCountInString EmptyString in
  let o := serve (router (PUT_todo the_id body)) (quiet the_oid) [milk] in
  ShouldBindJSON body zeroPayload = Some (mkPayload EmptyString true) /\
  (status_of (responses o) = StatusBadRequest <-> ~ 2 <= n <= 100) /\
  (n = 0 -> responses o = [refused required]) /\
  (n = 1 -> responses o = [refused (min 2)]) /\
  (100 < n -> responses o = [refused (max 100)]).
Proof.
  split; [reflexivity|].
  apply (item_length_decides_400 the_id the_oid
           (Some (JObject [("completed", JBool true)]))
           (mkPayload EmptyString true) (quiet the_oid) [milk]);
    [reflexivity | reflexivity | cbn; tauto].
Defined.

(* ================================================================== *)
(** ** Bodies that do not bind *)
(* ================================================================== *)

Lemma setPayloadField_misfit (p : todoPayload) (m : string * json) :
  setPayloadField p m = None <-> misfit m = true.
Proof.
  destruct m as [k v]. unfold setPayloadField, misfit. cbn [fst snd].
  destruct (String.eqb_spec (foldName k) "item") as [Hk | Hk].
  - rewrite Hk. cbn. destruct v; cbn; split; congruence.
  - destruct (String.eqb (foldName k) "completed"); cbn;
      [destruct v; cbn|]; split; congruence.
Qed.

Lemma decodeMembers_fails_iff (ms : list (string * json)) (p : todoPayload) :
  decodeMembers setPayloadField ms p = None <-> existsb misfit ms = true.
Proof.
  revert p. induction ms as [|m ms IH]; intros p; cbn.
  - split; discriminate.
  - destruct (setPayloadField p m) as [p'|] eqn:Hm.
    + destruct (misfit m) eqn:Hmis.
      * apply (proj2 (setPayloadField_misfit p m)) in Hmis. congruence.
      * cbn. apply IH.
    + apply (proj1 (setPayloadField_misfit p m)) in Hm. rewrite Hm. cbn.
      tauto.
Qed.

Lemma ShouldBindJSON_fails_iff (body : option json) :
  ShouldBindJSON body zeroPayload = None <-> unbindable body = true.
Proof.
  destruct body as [[| b | n | s | l | ms]|]; cbn;
    try (split; congruence).
  apply decodeMembers_fails_iff.
Qed.

(** X11. POST /todos and PUT /todos/:id answer 400 "invalid request body"
    exactly for the bodies that do not bind: no JSON value, a value that is
    neither an object nor [null], or an object in which some [item] is not
    a string or some [completed] is not a bool ([null] apart); keys are
    matched without regard to case.  Nothing is read or written then. *)
Theorem invalid_body_iff_unbindable
  (id : string) (oid : ObjectID) (body : option json)
  (environment : nat -> event) (collection : list todo) :
  ObjectIDFromHex id = Some oid ->
  forall r,
    In r [POST_todos body; PUT_todo id body] ->
    let o := serve (router r) environment collection in
    (unbindable body = true ->
     o = mkOutcome false
           [mkResponse StatusBadRequest (H "error" "invalid request body")]
           collection 0) /\
    (In (mkResponse StatusBadRequest (H "error" "invalid request body"))
        (responses o) -> unbindable body = true).
Proof.
  intros Hid r Hr. cbv zeta.
  pose proof (ShouldBindJSON_fails_iff body) as Hiff.
  cbn [In] in Hr. destruct Hr as [<- | [<- | []]]; cbn [router].
  - pose proof (createTodo_outcome body environment collection) as Ho.
    cbv zeta in Ho.
    destruct (ShouldBindJSON body zeroPayload) as [payload|].
    + split; [intros Hu; apply Hiff in Hu; discriminate|].
      destruct (Validate_Struct payload) as [[fes|]|] eqn:Hv.
      * rewrite Ho. cbn [responses In]. intros [[= Hmsg] | []].
        exfalso. unfold Validate_Struct, Item_tags in Hv.
        cbn [validateField] in Hv.
        repeat match type of Hv with
               | context [if ?b then _ else _] => destruct b
               end; try discriminate; injection Hv as <-; discriminate Hmsg.
      * unfold Validate_Struct in Hv.
        destruct (validateField _ _ _); discriminate.
      * destruct (fault (environment 0)); [|destruct (existsb _ _)];
          rewrite Ho; cbn [responses In]; intros [[=] | []].
    + split; [intros _; exact Ho | intros _; now apply Hiff].
  - pose proof (updateTodo_outcome id body environment collection) as Ho.
    cbv zeta in Ho. rewrite Hid in Ho.
    destruct (ShouldBindJSON body zeroPayload) as [payload|].
    + split; [intros Hu; apply Hiff in Hu; discriminate|].
      destruct (Validate_Struct payload) as [[fes|]|] eqn:Hv.
      * rewrite Ho. cbn [responses In]. intros [[= Hmsg] | []].
        exfalso. unfold Validate_Struct, Item_tags in Hv.
        cbn [validateField] in Hv.
        repeat match type of Hv with
               | context [if ?b then _ else _] => destruct b
               end; try discriminate; injection Hv as <-; discriminate Hmsg.
      * unfold Validate_Struct in Hv.
        destruct (validateField _ _ _); discriminate.
      * destruct (fault (environment 0)); [|destruct (find_by_id _ _)];
          rewrite Ho; cbn [responses In]; intros [[=] | []].
    + split; [intros _; exact Ho | intros _; now apply Hiff].
Qed.

Lemma invalid_body_iff_unbindable_witness :
  let body := Some (JObject [("Item", JNumber "7")]) in
  let o := serve (router (POST_todos body)) (quiet the_oid) [milk] in
  (unbindable body = true ->
   o = mkOutcome false
         [mkResponse StatusBadRequest (H "error" "invalid request body")]
         [milk] 0) /\
  (In (mkResponse StatusBadRequest (H "error" "invalid request body"))
      (responses o) -> unbindable body = true).
Proof.
  apply (invalid_body_iff_unbindable the_id the_oid
           (Some (JObject [("Item", JNumber "7")])) (quiet the_oid) [milk]);
    [reflexivity | cbn; tauto].
Defined.

(* ================================================================== *)
(** ** Runes and bytes *)
(* ================================================================== *)

Lemma size_bounds (c : N) (rest : list N) : 1 <= utf8.size c rest <= 4.
Proof.
  unfold utf8.size.
  repeat match goal with
         | |- context [if ?b then _ else _] => destruct b
         | |- context [let (_, _) := ?x in _] => destruct x
         end; lia.
Qed.

Lemma size_ascii (c : N) (rest : list N) :
  (c < 128)%N -> utf8.size c rest = 1.
Proof.
  intros Hc. unfold utf8.size, utf8.RuneSelf.
  now rewrite (proj2 (N.ltb_lt c 128) Hc).
Qed.

Lemma count_bounds (l : list N) :
  forall k,
    utf8.count k l <= List.length l /\
    List.length l <= k + 4 * utf8.count k l.
Proof.
  induction l as [|c rest IH]; intros k; cbn [utf8.count List.length].
  - lia.
  - destruct k as [|k].
    + destruct (IH (utf8.size c rest - 1)) as [Hle Hge].
      pose proof (size_bounds c rest). lia.
    + destruct (IH k) as [Hle Hge]. lia.
Qed.

Lemma count_ascii (l : list N) :
  Forall (fun b => (b < 128)%N) l -> utf8.count 0 l = List.length l.
Proof.
  induction 1 as [|c rest Hc Hrest IH]; [reflexivity|].
  cbn [utf8.count List.length]. rewrite (size_ascii c rest Hc).
  cbn [Nat.sub]. now rewrite IH.
Qed.

Lemma length_bytes_of (s : string) :
  List.length (bytes_of s) = String.length s.
Proof. induction s as [|c s IH]; cbn; [reflexivity | now rewrite IH]. Qed.

(** X12. The validator counts runes, not bytes: a record that POST answers 201
    with, or PUT answers 200 with, has an item of 2 to 100 runes, hence of
    2 to 400 bytes, and of at most 100 bytes when it is plain ASCII. *)
Theorem accepted_item_size
  (id : string) (body : option json) (environment : nat -> event)
  (collection : list todo) (t : todo) :
  In (mkResponse StatusCreated (one t))
     (responses (serve (createTodo body) environment collection)) \/
  In (mkResponse StatusOK (one t))
     (responses (serve (updateTodo id body) environment collection)) ->
  2 <= utf8.RuneCountInString (Item t) <= 100 /\
  2 <= String.length (Item t) <= 400 /\
  (ascii_only (Item t) -> String.length (Item t) <= 100).
Proof.
  intros Hin.
  assert (Hrunes : 2 <= utf8.RuneCountInString (Item t) <= 100).
  { destruct Hin as [Hin | Hin].
    - pose proof (createTodo_outcome body environment collection) as Ho.
      cbv zeta in Ho.
      destruct (ShouldBindJSON body zeroPayload) as [payload|];
        [|rewrite Ho in Hin; cbn in Hin; intuition discriminate].
      destruct (Validate_Struct payload) eqn:Hv;
        [rewrite Ho in Hin; cbn in Hin; intuition discriminate|].
      apply Validate_Struct_iff in Hv.
      destruct (fault (environment 0));
        [rewrite Ho in Hin; cbn in Hin; intuition discriminate|].
      destruct (existsb _ _); rewrite Ho in Hin; cbn in Hin;
        destruct Hin as [[= <-] | []]. exact Hv.
    - pose proof (updateTodo_outcome id body environment collection) as Ho.
      cbv zeta in Ho.
      destruct (ObjectIDFromHex id) as [oid|];
        [|rewrite Ho in Hin; cbn in Hin; intuition discriminate].
      destruct (ShouldBindJSON body zeroPayload) as [payload|];
        [|rewrite Ho in Hin; cbn in Hin; intuition discriminate].
      destruct (Validate_Struct payload) eqn:Hv;
        [rewrite Ho in Hin; cbn in Hin; intuition discriminate|].
      apply Validate_Struct_iff in Hv.
      destruct (fault (environment 0));
        [rewrite Ho in Hin; cbn in Hin; intuition discriminate|].
      destruct (find_by_id oid _); rewrite Ho in Hin; cbn in Hin;
        destruct Hin as [[= <-] | []]. exact Hv. }
  unfold utf8.RuneCountInString in *.
  destruct (count_bounds (bytes_of (Item t)) 0) as [Hle Hge].
  rewrite length_bytes_of in Hle, Hge.
  repeat split; try lia.
  intros Hascii. unfold ascii_only in Hascii.
  rewrite (count_ascii _ Hascii), length_bytes_of in Hrunes. lia.
Qed.

Lemma accepted_item_size_witness :
  let body := Some (JObject [("item", JString "ab")]) in
  let t := mkTodo the_oid "ab" false in
  (In (mkResponse StatusCreated (one t))
      (responses (serve (createTodo body) (quiet the_oid) [])) \/
   In (mkResponse StatusOK (one t))
      (responses (serve (updateTodo the_id body) (quiet the_oid) []))) /\
  2 <= utf8.RuneCountInString (Item t) <= 100 /\
  2 <= String.length (Item t) <= 400 /\
  (ascii_only (Item t) -> String.length (Item t) <= 100).
Proof.
  assert (Hin : In (mkResponse StatusCreated
                      (one (mkTodo the_oid "ab" false)))
                   (responses
                      (serve (createTodo
                                (Some (JObject [("item", JString "ab")])))
                             (quiet the_oid) [])) \/
                In (mkResponse StatusOK (one (mkTodo the_oid "ab" false)))
                   (responses
                      (serve (updateTodo the_id
                                (Some (JObject [("item", JString "ab")])))
                             (quiet the_oid) []))).
  { left. cbn. now left. }
  split; [exact Hin|].
  exact (accepted_item_size the_id
           (Some (JObject [("item", JString "ab")])) (quiet the_oid) []
           (mkTodo the_oid "ab" false) Hin).
Defined.

(* ================================================================== *)
(** ** How the writes compose *)
(* ================================================================== *)

Lemma update_first_twice (id : ObjectID) (u : update) (d : list todo) :
  apply_update u = (fun t => apply_update u (apply_update u t)) ->
  update_first id u (update_first id u d) = update_first id u d.
Proof.
  intros Hu. induction d as [|x d IH]; cbn; [reflexivity|].
  destruct (has_id id x) eqn:Hx; cbn.
  - rewrite has_id_update, Hx. f_equal.
    change (apply_update u (apply_update u x))
      with ((fun t => apply_update u (apply_update u t)) x).
    now rewrite <- Hu.
  - now rewrite Hx, IH.
Qed.

Lemma find_update_first (id : ObjectID) (u : update) (d : list todo) :
  find_by_id id (update_first id u d)
  = option_map (apply_update u) (find_by_id id d).
Proof.
  unfold find_by_id. induction d as [|x d IH]; cbn; [reflexivity|].
  destruct (has_id id x) eqn:Hx; cbn.
  - now rewrite has_id_update, Hx.
  - now rewrite Hx, IH.
Qed.

(** X13. PUT /todos/:id is idempotent: without concurrent writes and storage
    failures, the same request served a second time gets the same reply and
    leaves the collection as the first one left it. *)
Theorem update_is_idempotent
  (id : string) (body : option json) (first second : nat -> event)
  (collection : list todo) :
  calm (first 0) -> calm (second 0) ->
  let o1 := serve (updateTodo id body) first collection in
  let o2 := serve (updateTodo id body) second (store o1) in
  responses o2 = responses o1 /\ store o2 = store o1.
Proof.
  intros [Hb1 Hf1] [Hb2 Hf2]. cbv zeta.
  pose proof (updateTodo_outcome id body first collection) as H1.
  cbv zeta in H1. unfold arrive in H1. rewrite Hb1, Hf1 in H1.
  cbn [fold_left] in H1.
  pose proof (updateTodo_outcome id body second
                (store (serve (updateTodo id body) first collection))) as H2.
  cbv zeta in H2. unfold arrive in H2. rewrite Hb2, Hf2 in H2.
  cbn [fold_left] in H2.
  destruct (ObjectIDFromHex id) as [oid|];
    [|rewrite H2, H1; split; reflexivity].
  destruct (ShouldBindJSON body zeroPayload) as [payload|];
    [|rewrite H2, H1; split; reflexivity].
  destruct (Validate_Struct payload);
    [rewrite H2, H1; split; reflexivity|].
  destruct (find_by_id oid collection) as [t|] eqn:Hfind.
  - rewrite H1 in H2 |- *. simp. cbn [store] in H2.
    rewrite find_update_first, Hfind in H2. cbn [option_map] in H2.
    rewrite H2. simp. split; [reflexivity|].
    now apply update_first_twice.
  - rewrite H1 in H2 |- *. simp. cbn [store] in H2. rewrite Hfind in H2.
    now rewrite H2.
Qed.

Lemma update_is_idempotent_witness :
  let body := Some (JObject [("item", JString "buy oat milk")]) in
  let o1 := serve (updateTodo the_id body) (quiet the_oid) [bread; milk] in
  let o2 := serve (updateTodo the_id body) (quiet the_oid) (store o1) in
  responses o2 = responses o1 /\ store o2 = store o1.
Proof.
  apply (update_is_idempotent the_id
           (Some (JObject [("item", JString "buy oat milk")]))
           (quiet the_oid) (quiet the_oid) [bread; milk]);
    split; reflexivity.
Defined.

(** X14. Identifiers are immutable and only create and delete change which
    ones the collection holds: without concurrent writes, the list, get,
    toggle and replace routes leave the identifiers of the collection, in
    their order, as they were, whatever the reply. *)
Theorem identifiers_are_kept
  (id : string) (body : option json) (environment : nat -> event)
  (collection : list todo) :
  (forall n, before (environment n) = []) ->
  forall r,
    In r [GET_todos; GET_todo id; PATCH_todo id; PUT_todo id body] ->
    map ID (store (serve (router r) environment collection))
    = map ID collection.
Proof.
  intros Hq r Hr.
  assert (Ha : forall n d, arrive (environment n) d = d)
    by (intros n d; unfold arrive; now rewrite Hq).
  cbn [In] in Hr.
  destruct Hr as [<- | [<- | [<- | [<- | []]]]]; cbn [router].
  - pose proof (getTodos_outcome environment collection) as Ho.
    ways Ho; now rewrite ?Ha.
  - pose proof (getTodo_outcome id environment collection) as Ho.
    ways Ho; now rewrite ?Ha.
  - pose proof (toggleTodoStatus_outcome id environment collection) as Ho.
    ways Ho; now rewrite ?map_ID_update_first, ?Ha.
  - pose proof (updateTodo_outcome id body environment collection) as Ho.
    ways Ho; now rewrite ?map_ID_update_first, ?Ha.
Qed.

Lemma identifiers_are_kept_witness :
  (forall n, before (failing_second "timeout" n) = []) /\
  map ID (store (serve (router (PATCH_todo the_id))
                       (failing_second "timeout") [bread; milk]))
  = map ID [bread; milk].
Proof.
  assert (Hq : forall n, before (failing_second "timeout" n) = [])
    by reflexivity.
  split; [exact Hq|].
  apply (identifiers_are_kept the_id None (failing_second "timeout")
           [bread; milk] Hq).
  cbn; tauto.
Defined.

(** X15. GET /todos, from any collection: unless the storage layer fails the
    call, the reply is 200 with a non-nil slice that holds every document
    of the collection once, so it marshals to a JSON array, never to
    [null]; the scan order is the storage layer's. *)
Theorem list_returns_every_document
  (environment : nat -> event) (collection : list todo) :
  fault (environment 0) = None ->
  (forall l, Permutation (order (environment 0) l) l) ->
  let o := serve getTodos environment collection in
  exists ts,
    responses o = [mkResponse StatusOK (many (Some ts))] /\
    Permutation ts (arrive (environment 0) collection) /\
    Marshal (many (Some ts)) = Some (JArray (map marshal_todo ts)) /\
    store o = arrive (environment 0) collection.
Proof.
  intros Hfault Hperm. cbv zeta.
  pose proof (getTodos_outcome environment collection) as Ho.
  cbv zeta in Ho. rewrite Hfault in Ho. rewrite Ho. simp.
  eexists. split; [reflexivity|]. split; [apply Hperm|]. now split.
Qed.

Lemma list_returns_every_document_witness :
  let o := serve getTodos (backwards NilObjectID) [bread; milk] in
  (forall l : list todo,
      Permutation (order (backwards NilObjectID 0) l) l) /\
  exists ts,
    responses o = [mkResponse StatusOK (many (Some ts))] /\
    Permutation ts (arrive (backwards NilObjectID 0) [bread; milk]) /\
    Marshal (many (Some ts)) = Some (JArray (map marshal_todo ts)) /\
    store o = arrive (backwards NilObjectID 0) [bread; milk].
Proof.
  assert (Hp : forall l : list todo,
             Permutation (order (backwards NilObjectID 0) l) l)
    by (intros l; apply Permutation_sym, Permutation_rev).
  split; [exact Hp|].
  exact (list_returns_every_document (backwards NilObjectID) [bread; milk]
           eq_refl Hp).
Defined.

(** X16. The identifier of a created record is never the client's: for
    any body, an [id] member included, a record that POST /todos answers
    201 with carries the identifier the driver drew for the insert; that
    identifier was not in use, and the record is appended to the
    collection as the call found it. *)
Theorem created_identifier_is_the_drivers
  (body : option json) (environment : nat -> event) (collection : list todo)
  (t : todo) :
  In (mkResponse StatusCreated (one t))
     (responses (serve (createTodo body) environment collection)) ->
  ID t = fresh (environment 0) /\
  find_by_id (ID t) (arrive (environment 0) collection) = None /\
  store (serve (createTodo body) environment collection)
  = arrive (environment 0) collection ++ [t].
Proof.
  intros Hin.
  pose proof (createTodo_outcome body environment collection) as Ho.
  cbv zeta in Ho.
  destruct (ShouldBindJSON body zeroPayload) as [payload|];
    [|rewrite Ho in Hin; cbn in Hin; intuition discriminate].
  destruct (Validate_Struct payload);
    [rewrite Ho in Hin; cbn in Hin; intuition discriminate|].
  destruct (fault (environment 0));
    [rewrite Ho in Hin; cbn in Hin; intuition discriminate|].
  destruct (existsb _ _) eqn:Hdup; rewrite Ho in Hin |- *; cbn in Hin;
    destruct Hin as [[= <-] | []].
  cbn [ID store]. repeat split. now apply existsb_has_id.
Qed.

Lemma created_identifier_is_the_drivers_witness :
  let body := Some (JObject [("id", JString the_id);
                             ("item", JString "buy bread");
                             ("completed", JBool true)]) in
  let o := serve (createTodo body) (quiet other_oid) [milk] in
  In (mkResponse StatusCreated (one bread)) (responses o) /\
  ID bread = fresh (quiet other_oid 0) /\
  find_by_id (ID bread) (arrive (quiet other_oid 0) [milk]) = None /\
  store o = arrive (quiet other_oid 0) [milk] ++ [bread].
Proof.
  assert (Hin : In (mkResponse StatusCreated (one bread))
                   (responses
                      (serve (createTodo
                                (Some (JObject [("id", JString the_id);
                                                ("item", JString "buy bread");
                                                ("completed", JBool true)])))
                             (quiet other_oid) [milk])))
    by (cbn; now left).
  split; [exact Hin|].
  exact (created_identifier_is_the_drivers
           (Some (JObject [("id", JString the_id);
                           ("item", JString "buy bread");
                           ("completed", JBool true)]))
           (quiet other_oid) [milk] bread Hin).
Defined.

(* ================================================================== *)
(** ** The older revision, in general *)
(* ================================================================== *)

Ltac unfold_older :=
  unfold serve, Part000.createTodo, Part000.updateTodo, bind, ret, return_,
         panic, deref, IndentedJSON, JSON, InsertOne, FindOneAndUpdate, call.

(** X17. The older POST /todos checks only that the item is not empty: a body
    that binds to an empty item is answered 400 "item is required"; any
    other item, of whatever length, is inserted and answered 201 when the
    insert succeeds.  A non-zero identifier bound from the body is stored
    as it is; otherwise the driver draws one. *)
Theorem older_create_checks_only_emptiness
  (unmarshal_id : json -> ObjectID -> option ObjectID)
  (body : option json) (bound : todo) (environment : nat -> event)
  (collection : list todo) :
  Part000.ShouldBindJSON unmarshal_id body zeroTodo = Some bound ->
  let e := environment 0 in
  let o := serve (Part000.createTodo unmarshal_id body) environment
                 collection in
  let doc := if IsZero (ID bound)
             then mkTodo (fresh e) (Item bound) (Completed bound)
             else bound in
  (Item bound = EmptyString ->
   o = mkOutcome false
         [mkResponse StatusBadRequest (H "error" "item is required")]
         collection 0) /\
  (Item bound <> EmptyString ->
   fault e = None ->
   find_by_id (ID doc) (arrive e collection) = None ->
   o = mkOutcome false
         [mkResponse StatusCreated
            (one (mkTodo (ID doc) (Item bound) (Completed bound)))]
         (arrive e collection ++ [doc]) 1).
Proof.
  intros Hbind. cbv zeta. split.
  - intros Hitem. unfold_older; simp. rewrite Hbind, Hitem. reflexivity.
  - intros Hitem Hfault Hfree.
    apply String.eqb_neq in Hitem. apply existsb_has_id in Hfree.
    unfold_older; simp. rewrite Hbind, Hitem; simp. rewrite Hfault.
    unfold insert_doc. rewrite Hfree. reflexivity.
Qed.

Lemma older_create_checks_only_emptiness_witness :
  let body := Some (JObject [("id", JString the_id);
                             ("item", JString "x")]) in
  let bound := mkTodo the_oid "x" false in
  let e := quiet other_oid 0 in
  let o := serve (Part000.createTodo unmarshal_hex body) (quiet other_oid)
                 [bread] in
  let doc := if IsZero (ID bound)
             then mkTodo (fresh e) (Item bound) (Completed bound)
             else bound in
  Part000.ShouldBindJSON unmarshal_hex body zeroTodo = Some bound /\
  (Item bound = EmptyString ->
   o = mkOutcome false
         [mkResponse StatusBadRequest (H "error" "item is required")]
         [bread] 0) /\
  (Item bound <> EmptyString ->
   fault e = None ->
   find_by_id (ID doc) (arrive e [bread]) = None ->
   o = mkOutcome false
         [mkResponse StatusCreated
            (one (mkTodo (ID doc) (Item bound) (Completed bound)))]
         (arrive e [bread] ++ [doc]) 1).
Proof.
  split; [reflexivity|].
  apply (older_create_checks_only_emptiness unmarshal_hex
           (Some (JObject [("id", JString the_id); ("item", JString "x")]))
           (mkTodo the_oid "x" false) (quiet other_oid) [bread]).
  reflexivity.
Defined.

(** X18. The older PUT /todos/:id does not validate: whatever item the body
    binds to, the empty one included, replaces the item of the document
    found; the identifier and the [completed] of the body are not used. *)
Theorem older_update_does_not_validate
  (unmarshal_id : json -> ObjectID -> option ObjectID)
  (id : string) (oid : ObjectID) (body : option json) (bound : todo)
  (environment : nat -> event) (collection : list todo) (t : todo) :
  ObjectIDFromHex id = Some oid ->
  Part000.ShouldBindJSON unmarshal_id body zeroTodo = Some bound ->
  fault (environment 0) = None ->
  find_by_id oid (arrive (environment 0) collection) = Some t ->
  serve (Part000.updateTodo unmarshal_id id body) environment collection
  = mkOutcome false
      [mkResponse StatusOK (one (mkTodo (ID t) (Item bound) (Completed t)))]
      (update_first oid (set_item (Item bound))
         (arrive (environment 0) collection)) 1.
Proof.
  intros Hid Hbind Hfault Hfind.
  unfold_older; simp. rewrite Hid, Hbind; simp. now rewrite Hfault, Hfind.
Qed.

Lemma older_update_does_not_validate_witness :
  find_by_id the_oid (arrive (quiet the_oid 0) [bread; milk]) = Some milk /\
  serve (Part000.updateTodo unmarshal_hex the_id
           (Some (JObject [("completed", JBool true)])))
        (quiet the_oid) [bread; milk]
  = mkOutcome false
      [mkResponse StatusOK
         (one (mkTodo (ID milk) (Item (mkTodo NilObjectID EmptyString true))
                      (Completed milk)))]
      (update_first the_oid
         (set_item (Item (mkTodo NilObjectID EmptyString true)))
         (arrive (quiet the_oid 0) [bread; milk])) 1.
Proof.
  split; [reflexivity|].
  apply (older_update_does_not_validate unmarshal_hex the_id the_oid
           (Some (JObject [("completed", JBool true)]))
           (mkTodo NilObjectID EmptyString true) (quiet the_oid)
           [bread; milk] milk);
    reflexivity.
Defined.

(* ================================================================== *)
(** ** The toggle under concurrent writes, and the frame of a write *)
(* ================================================================== *)

(** X19. The toggle writes the negation of the value it read, not of the value
    stored when the write lands: when the document is still there at the
    second call, whatever concurrent writes did to it in between, the reply
    is the copy read first with [completed] negated, and the stored
    document gets that [completed] and keeps the item it has by then. *)
Theorem toggle_writes_negation_of_value_read
  (id : string) (oid : ObjectID) (environment : nat -> event)
  (collection : list todo) (t t' : todo) :
  ObjectIDFromHex id = Some oid ->
  fault (environment 0) = None ->
  fault (environment 1) = None ->
  find_by_id oid (arrive (environment 0) collection) = Some t ->
  find_by_id oid
    (arrive (environment 1) (arrive (environment 0) collection)) = Some t' ->
  let o := serve (toggleTodoStatus id) environment collection in
  responses o = [mkResponse StatusOK (one (flipped t))] /\
  find_by_id oid (store o)
  = Some (mkTodo (ID t') (Item t') (negb (Completed t))).
Proof.
  intros Hid Hf0 Hf1 Hfind Hfind'. cbv zeta.
  pose proof (toggleTodoStatus_outcome id environment collection) as Ho.
  cbv zeta in Ho. rewrite Hid, Hf0, Hfind, Hf1 in Ho. rewrite Ho. simp.
  split; [reflexivity|]. now rewrite find_update_first, Hfind'.
Qed.

Lemma toggle_writes_negation_of_value_read_witness :
  let environment := toggled_meanwhile the_oid true in
  let o := serve (toggleTodoStatus the_id) environment [milk] in
  find_by_id the_oid (arrive (environment 0) [milk]) = Some milk /\
  find_by_id the_oid (arrive (environment 1) (arrive (environment 0) [milk]))
  = Some (flipped milk) /\
  responses o = [mkResponse StatusOK (one (flipped milk))] /\
  find_by_id the_oid (store o)
  = Some (mkTodo (ID (flipped milk)) (Item (flipped milk))
                 (negb (Completed milk))).
Proof.
  split; [reflexivity|]. split; [reflexivity|].
  apply (toggle_writes_negation_of_value_read the_id the_oid
           (toggled_meanwhile the_oid true) [milk] milk (flipped milk));
    reflexivity.
Defined.

Lemma has_id_other (a b : ObjectID) (t : todo) :
  a <> b -> has_id a t = true -> has_id b t = false.
Proof.
  unfold has_id. intros Hab Ha. apply oid_eqb_eq in Ha.
  destruct (oid_eqb (ID t) b) eqn:Hb; [|reflexivity].
  apply oid_eqb_eq in Hb. congruence.
Qed.

Lemma find_other_update (a b : ObjectID) (u : update) (d : list todo) :
  a <> b -> find_by_id b (update_first a u d) = find_by_id b d.
Proof.
  intros Hab. unfold find_by_id. induction d as [|x d IH]; [reflexivity|].
  cbn. destruct (has_id a x) eqn:Hx; cbn.
  - now rewrite has_id_update, (has_id_other a b x Hab Hx).
  - now rewrite IH.
Qed.

Lemma find_other_delete (a b : ObjectID) (d : list todo) :
  a <> b -> find_by_id b (delete_first a d) = find_by_id b d.
Proof.
  intros Hab. unfold find_by_id. induction d as [|x d IH]; [reflexivity|].
  cbn. destruct (has_id a x) eqn:Hx; cbn.
  - now rewrite (has_id_other a b x Hab Hx).
  - now rewrite IH.
Qed.

(** X20. A request on one identifier touches no other: without concurrent
    writes, after a toggle, a replace or a delete on [:id], whatever the
    reply, every other identifier resolves to the document it resolved to
    before. *)
Theorem other_identifiers_untouched
  (id : string) (oid other : ObjectID) (body : option json)
  (environment : nat -> event) (collection : list todo) :
  ObjectIDFromHex id = Some oid ->
  other <> oid ->
  (forall n, before (environment n) = []) ->
  forall r,
    In r [PATCH_todo id; PUT_todo id body; DELETE_todo id] ->
    find_by_id other (store (serve (router r) environment collection))
    = find_by_id other collection.
Proof.
  intros Hid Hother Hq r Hr.
  assert (Hne : oid <> other) by congruence.
  assert (Ha : forall n d, arrive (environment n) d = d)
    by (intros n d; unfold arrive; now rewrite Hq).
  cbn [In] in Hr. destruct Hr as [<- | [<- | [<- | []]]]; cbn [router].
  - pose proof (toggleTodoStatus_outcome id environment collection) as Ho.
    cbv zeta in Ho. rewrite Hid in Ho.
    ways Ho; now rewrite ?(find_other_update _ _ _ _ Hne), ?Ha.
  - pose proof (updateTodo_outcome id body environment collection) as Ho.
    cbv zeta in Ho. rewrite Hid in Ho.
    ways Ho; now rewrite ?(find_other_update _ _ _ _ Hne), ?Ha.
  - pose proof (deleteTodo_outcome id environment collection) as Ho.
    cbv zeta in Ho. rewrite Hid in Ho.
    ways Ho; now rewrite ?(find_other_delete _ _ _ Hne), ?Ha.
Qed.

Lemma other_identifiers_untouched_witness :
  other_oid <> the_oid /\
  find_by_id other_oid
    (store (serve (router (DELETE_todo the_id)) (quiet the_oid)
                  [milk; bread]))
  = find_by_id other_oid [milk; bread].
Proof.
  assert (Hne : other_oid <> the_oid) by discriminate.
  split; [exact Hne|].
  apply (other_identifiers_untouched the_id the_oid other_oid None
           (quiet the_oid) [milk; bread] eq_refl Hne);
    [reflexivity | cbn; tauto].
Defined.

Lemma reads_never_write_witness :
  let o := serve (router (GET_todo the_id)) (deleted_meanwhile the_oid)
                 [milk] in
  store o = (if issued o =? 0 then [milk]
             else arrive (deleted_meanwhile the_oid 0) [milk]).
Proof.
  apply (reads_never_write the_id (deleted_meanwhile the_oid) [milk]).
  cbn; tauto.
Defined.

(* ================================================================== *)
(** ** The length of the item, revision by revision *)
(* ================================================================== *)

(** The older [createTodo] answers 201 to an item of one character and to
    one of 101, where [main.go] answers 400. *)
Lemma older_create_accepts_1_and_101_characters :
  status_of
    (responses
       (serve (Part000.createTodo unmarshal_hex
                 (Some (JObject [("item", JString (letters 1))])))
              (quiet the_oid) []))
  = StatusCreated /\
  status_of
    (responses
       (serve (Part000.createTodo unmarshal_hex
                 (Some (JObject [("item", JString (letters 101))])))
              (quiet the_oid) []))
  = StatusCreated.
Proof. vm_compute. split; reflexivity. Qed.

(** C5. POST /todos, by revision of the file.  In [main.go], for a body
    that binds to a payload: an [item] of one character, or of 101, is
    answered 400 with the validator's message for the failed tag and
    nothing is stored; an [item] of 2 or of 100 characters is answered 201
    with the stored record when the insert succeeds; an object without a
    [completed] member gives [Completed] false.  In the older revision,
    for a body that binds to a record: only the empty [item] is refused,
    with 400 "item is required"; every other [item], of one character and
    of 101 as well, is answered 201 with the stored record when the insert
    succeeds.  Characters are counted in runes. *)
Theorem create_item_length_by_revision
  (unmarshal_id : json -> ObjectID -> option ObjectID)
  (body : option json) (environment : nat -> event)
  (collection : list todo) :
  let e := environment 0 in
  (forall payload,
      ShouldBindJSON body zeroPayload = Some payload ->
      let n := utf8.RuneCountInString (payloadItem payload) in
      let o := serve (createTodo body) environment collection in
      (n = 1 ->
       o = mkOutcome false
             [mkResponse StatusBadRequest
                (H "error"
                   ("Field validation for 'Item' failed: 'min' (condition: 2)"
                      ++ newline)%string)]
             collection 0) /\
      (n = 101 ->
       o = mkOutcome false
             [mkResponse StatusBadRequest
                (H "error"
                   ("Field validation for 'Item' failed: 'max' (condition: 100)"
                      ++ newline)%string)]
             collection 0) /\
      (n = 2 \/ n = 100 ->
       fault e = None ->
       find_by_id (fresh e) (arrive e collection) = None ->
       let t := mkTodo (fresh e) (payloadItem payload)
                       (payloadCompleted payload) in
       o = mkOutcome false [mkResponse StatusCreated (one t)]
             (arrive e collection ++ [t]) 1) /\
      (forall ms,
          body = Some (JObject ms) ->
          (forall k v, In (k, v) ms -> foldName k <> "completed") ->
          payloadCompleted payload = false)) /\
  (forall bound,
      Part000.ShouldBindJSON unmarshal_id body zeroTodo = Some bound ->
      let n := utf8.RuneCountInString (Item bound) in
      let o := serve (Part000.createTodo unmarshal_id body) environment
                     collection in
      let doc := if IsZero (ID bound)
                 then mkTodo (fresh e) (Item bound) (Completed bound)
                 else bound in
      (n = 0 ->
       o = mkOutcome false
             [mkResponse StatusBadRequest (H "error" "item is required")]
             collection 0) /\
      (1 <= n ->
       fault e = None ->
       find_by_id (ID doc) (arrive e collection) = None ->
       o = mkOutcome false
             [mkResponse StatusCreated
                (one (mkTodo (ID doc) (Item bound) (Completed bound)))]
             (arrive e collection ++ [doc]) 1)).
Proof.
  cbv zeta. split.
  - intros payload Hbind.
    exact (create_item_length_boundaries body payload environment collection
             Hbind).
  - intros bound Hbind. split.
    + intros Hn. apply rune_count_zero in Hn.
      unfold_older; simp. rewrite Hbind, Hn. reflexivity.
    + intros Hn Hfault Hfree.
      assert (Hitem : String.eqb (Item bound) EmptyString = false)
        by (apply rune_count_positive; lia).
      apply existsb_has_id in Hfree.
      unfold_older; simp. rewrite Hbind, Hitem; simp. rewrite Hfault.
      unfold insert_doc. rewrite Hfree. reflexivity.
Qed.

Lemma create_item_length_by_revision_witness :
  let body := Some (JObject [("item", JString "a")]) in
  ShouldBindJSON body zeroPayload = Some (mkPayload "a" false) /\
  Part000.ShouldBindJSON unmarshal_hex body zeroTodo
  = Some (mkTodo NilObjectID "a" false) /\
  serve (createTodo body) (quiet the_oid) [bread]
  = mkOutcome false
      [mkResponse StatusBadRequest
         (H "error"
            ("Field validation for 'Item' failed: 'min' (condition: 2)"
               ++ newline)%string)]
      [bread] 0 /\
  serve (Part000.createTodo unmarshal_hex body) (quiet the_oid) [bread]
  = mkOutcome false
      [mkResponse StatusCreated (one (mkTodo the_oid "a" false))]
      ([bread] ++ [mkTodo the_oid "a" false]) 1.
Proof.
  split; [reflexivity|]. split; [reflexivity|].
  destruct (create_item_length_by_revision unmarshal_hex
              (Some (JObject [("item", JString "a")])) (quiet the_oid)
              [bread]) as [Hnew Hold].
  split.
  - exact (proj1 (Hnew (mkPayload "a" false) eq_refl) eq_refl).
  - exact (proj2 (Hold (mkTodo NilObjectID "a" false) eq_refl)
             (le_n 1) eq_refl eq_refl).
Defined.
